(** * quote-api: the quote handler of [main.go], embedded and verified

    The program is one HTTP handler, [quoteHandler], and a [main] that
    registers it on the default mux and serves on port 8080.  The handler
    builds a five-element slice of strings, reseeds the global random
    source of [math/rand] from the clock, draws an index with [rand.Intn],
    sets the [Content-Type] header and writes the selected string, pasted
    by [fmt.Fprintf] into a fixed format.

    Go strings are byte sequences: they are modelled as [string] (a list
    of 8-bit [ascii]).  Go's [int] and [int64] are modelled as [Z].  The
    header map of a response is a [gmap] from header names to lists of
    values, as [http.Header] is a [map[string][]string]. *)

From Stdlib Require Import ZArith NArith Ascii String List Bool Lia.
From stdpp Require Import base option gmap strings list fin_maps.

Set Warnings "-register-all".

Local Open Scope string_scope.
Local Open Scope list_scope.

(** ** Characters and string helpers *)

Module Chars.

Definition dquote : ascii := "034"%char.
Definition backslash : ascii := "092"%char.

(** One-character string. *)
Definition str1 (c : ascii) : string := String c EmptyString.

(** The value of a decimal digit. *)
Definition digit_value (c : ascii) : option Z :=
  let n := Z.of_N (N_of_ascii c) in
  if (48 <=? n)%Z && (n <=? 57)%Z then Some (n - 48)%Z else None.

End Chars.

(** ** JSON documents (RFC 8259)

    The reading of "the body parses as JSON": a recursive-descent parser
    for the full grammar of RFC 8259 over bytes.  Numbers are kept as
    their lexeme.  String contents are bytes; an escape [\uXXXX] is
    decoded to the UTF-8 encoding of its code point, a surrogate pair to
    one code point, and a lone surrogate to U+FFFD.  Unescaped bytes are
    copied as they are: [parse] works on bytes and accepts every JSON
    text, and also texts whose bytes are not well-formed UTF-8.  It is
    the parser to reject a body with.  [decode], after it, first checks
    that the text is well-formed UTF-8 (RFC 3629) and is the parser to
    accept a body with. *)

Module Json.
Import Chars.

Inductive json : Type :=
| JNull
| JBool (b : bool)
| JNumber (lexeme : string)
| JString (s : string)
| JArray (items : list json)
| JObject (members : list (string * json)).

(** Insignificant whitespace: space, tab, line feed, carriage return. *)
Definition is_ws (c : ascii) : bool :=
  Ascii.eqb c " " || Ascii.eqb c "009" || Ascii.eqb c "010" || Ascii.eqb c "013".

Fixpoint skip_ws (s : string) : string :=
  match s with
  | String c rest => if is_ws c then skip_ws rest else s
  | EmptyString => s
  end.

(** Characters that may not appear unescaped inside a JSON string:
    the double quote, the backslash and the control characters
    U+0000 .. U+001F. *)
Definition is_control (c : ascii) : bool := (N_of_ascii c <? 32)%N.

Definition needs_escape (c : ascii) : bool :=
  Ascii.eqb c dquote || Ascii.eqb c backslash || is_control c.

Definition hex_digit (c : ascii) : option N :=
  let n := N_of_ascii c in
  if (48 <=? n)%N && (n <=? 57)%N then Some (n - 48)%N
  else if (65 <=? n)%N && (n <=? 70)%N then Some (n - 55)%N
  else if (97 <=? n)%N && (n <=? 102)%N then Some (n - 87)%N
  else None.

Definition hex4 (a b c d : ascii) : option N :=
  match hex_digit a, hex_digit b, hex_digit c, hex_digit d with
  | Some x, Some y, Some z, Some w => Some (x * 4096 + y * 256 + z * 16 + w)%N
  | _, _, _, _ => None
  end.

(** The two-character escapes. *)
Definition simple_escape (c : ascii) : option ascii :=
  if Ascii.eqb c dquote then Some dquote
  else if Ascii.eqb c backslash then Some backslash
  else if Ascii.eqb c "/" then Some "/"%char
  else if Ascii.eqb c "b" then Some "008"%char
  else if Ascii.eqb c "f" then Some "012"%char
  else if Ascii.eqb c "n" then Some "010"%char
  else if Ascii.eqb c "r" then Some "013"%char
  else if Ascii.eqb c "t" then Some "009"%char
  else None.

(** A string is first read as a list of units: a raw byte, or the
    UTF-16 code unit of a [\uXXXX] escape. *)
Inductive unit_ : Type :=
| Raw (c : ascii)
| Esc (u : N).

(** [scan_string s] reads the contents of a string whose opening quote
    has been consumed, up to and including the closing quote. *)
Fixpoint scan_string (s : string) : option (list unit_ * string) :=
  match s with
  | EmptyString => None
  | String c rest =>
      if Ascii.eqb c dquote then Some ([], rest)
      else if Ascii.eqb c backslash then
        match rest with
        | EmptyString => None
        | String e rest1 =>
            if Ascii.eqb e "u" then
              match rest1 with
              | String h1 (String h2 (String h3 (String h4 rest2))) =>
                  match hex4 h1 h2 h3 h4 with
                  | Some u =>
                      match scan_string rest2 with
                      | Some (us, r) => Some (Esc u :: us, r)
                      | None => None
                      end
                  | None => None
                  end
              | _ => None
              end
            else
              match simple_escape e with
              | Some b =>
                  match scan_string rest1 with
                  | Some (us, r) => Some (Raw b :: us, r)
                  | None => None
                  end
              | None => None
              end
        end
      else if is_control c then None
      else
        match scan_string rest with
        | Some (us, r) => Some (Raw c :: us, r)
        | None => None
        end
  end.

(** UTF-8 encoding of a code point below 0x110000. *)
Definition utf8 (cp : N) : string :=
  let b (n : N) := ascii_of_N n in
  if (cp <? 128)%N then str1 (b cp)
  else if (cp <? 2048)%N then
    String (b (192 + cp / 64)%N) (str1 (b (128 + cp mod 64)%N))
  else if (cp <? 65536)%N then
    String (b (224 + cp / 4096)%N)
      (String (b (128 + (cp / 64) mod 64)%N) (str1 (b (128 + cp mod 64)%N)))
  else
    String (b (240 + cp / 262144)%N)
      (String (b (128 + (cp / 4096) mod 64)%N)
         (String (b (128 + (cp / 64) mod 64)%N) (str1 (b (128 + cp mod 64)%N)))).

Definition is_high_surrogate (u : N) : bool := (55296 <=? u)%N && (u <? 56320)%N.
Definition is_low_surrogate (u : N) : bool := (56320 <=? u)%N && (u <? 57344)%N.

Fixpoint decode_units (us : list unit_) : string :=
  match us with
  | [] => EmptyString
  | Raw c :: rest => String c (decode_units rest)
  | Esc u :: rest =>
      if is_high_surrogate u then
        match rest with
        | Esc v :: rest' =>
            if is_low_surrogate v
            then utf8 (65536 + (u - 55296) * 1024 + (v - 56320))%N +:+ decode_units rest'
            else utf8 65533%N +:+ decode_units rest
        | _ => utf8 65533%N +:+ decode_units rest
        end
      else if is_low_surrogate u then utf8 65533%N +:+ decode_units rest
      else utf8 u +:+ decode_units rest
  end.

(** [parse_string s]: [s] starts right after the opening quote. *)
Definition parse_string (s : string) : option (string * string) :=
  match scan_string s with
  | Some (us, rest) => Some (decode_units us, rest)
  | None => None
  end.

(** *** Numbers *)

Definition is_digit (c : ascii) : bool :=
  let n := N_of_ascii c in (48 <=? n)%N && (n <=? 57)%N.

(** Longest prefix of digits, and what follows it. *)
Fixpoint span_digits (s : string) : string * string :=
  match s with
  | String c rest =>
      if is_digit c
      then let '(ds, r) := span_digits rest in (String c ds, r)
      else (EmptyString, s)
  | EmptyString => (EmptyString, s)
  end.

(** int = zero / ( digit1-9 *DIGIT ) *)
Definition parse_int (s : string) : option (string * string) :=
  match s with
  | String c rest =>
      if Ascii.eqb c "0" then Some (str1 c, rest)
      else if is_digit c
      then let '(ds, r) := span_digits rest in Some (String c ds, r)
      else None
  | EmptyString => None
  end.

(** frac = decimal-point 1*DIGIT (optional) *)
Definition parse_frac (s : string) : option (string * string) :=
  match s with
  | String c rest =>
      if Ascii.eqb c "." then
        match span_digits rest with
        | (EmptyString, _) => None
        | (ds, r) => Some (String c ds, r)
        end
      else Some (EmptyString, s)
  | EmptyString => Some (EmptyString, s)
  end.

(** exp = e [ minus / plus ] 1*DIGIT (optional) *)
Definition parse_exp (s : string) : option (string * string) :=
  match s with
  | String c rest =>
      if Ascii.eqb c "e" || Ascii.eqb c "E" then
        let '(sign, rest1) :=
          match rest with
          | String g rest' =>
              if Ascii.eqb g "+" || Ascii.eqb g "-"
              then (str1 g, rest') else (EmptyString, rest)
          | EmptyString => (EmptyString, rest)
          end in
        match span_digits rest1 with
        | (EmptyString, _) => None
        | (ds, r) => Some (String c (sign +:+ ds), r)
        end
      else Some (EmptyString, s)
  | EmptyString => Some (EmptyString, s)
  end.

(** number = [ minus ] int [ frac ] [ exp ] *)
Definition parse_number (s : string) : option (string * string) :=
  let '(sign, s1) :=
    match s with
    | String c rest => if Ascii.eqb c "-" then (str1 c, rest) else (EmptyString, s)
    | EmptyString => (EmptyString, s)
    end in
  match parse_int s1 with
  | Some (i, s2) =>
      match parse_frac s2 with
      | Some (f, s3) =>
          match parse_exp s3 with
          | Some (e, s4) => Some (sign +:+ i +:+ f +:+ e, s4)
          | None => None
          end
      | None => None
      end
  | None => None
  end.

(** [strip_prefix p s] is what follows [p] in [s], when [s] starts with [p]. *)
Fixpoint strip_prefix (p s : string) : option string :=
  match p, s with
  | EmptyString, _ => Some s
  | String a p', String b s' => if Ascii.eqb a b then strip_prefix p' s' else None
  | String _ _, EmptyString => None
  end.

(** *** Values

    The three mutually recursive parsers go down on [fuel].  On a chain
    of nested calls a byte is consumed at least at every second call
    (an opening bracket, a comma, a key), so [parse] below starts them
    with twice the length of the text, and two. *)
Fixpoint parse_value (fuel : nat) (s : string) : option (json * string) :=
  match fuel with
  | O => None
  | S fuel' =>
      match skip_ws s with
      | EmptyString => None
      | String c rest =>
          if Ascii.eqb c "{" then
            match skip_ws rest with
            | String c' rest' =>
                if Ascii.eqb c' "}" then Some (JObject [], rest')
                else
                  match parse_members fuel' (String c' rest') with
                  | Some (ms, r) => Some (JObject ms, r)
                  | None => None
                  end
            | EmptyString => None
            end
          else if Ascii.eqb c "[" then
            match skip_ws rest with
            | String c' rest' =>
                if Ascii.eqb c' "]" then Some (JArray [], rest')
                else
                  match parse_elements fuel' (String c' rest') with
                  | Some (vs, r) => Some (JArray vs, r)
                  | None => None
                  end
            | EmptyString => None
            end
          else if Ascii.eqb c dquote then
            match parse_string rest with
            | Some (str, r) => Some (JString str, r)
            | None => None
            end
          else if Ascii.eqb c "t" then
            match strip_prefix "rue" rest with
            | Some r => Some (JBool true, r)
            | None => None
            end
          else if Ascii.eqb c "f" then
            match strip_prefix "alse" rest with
            | Some r => Some (JBool false, r)
            | None => None
            end
          else if Ascii.eqb c "n" then
            match strip_prefix "ull" rest with
            | Some r => Some (JNull, r)
            | None => None
            end
          else
            match parse_number (String c rest) with
            | Some (lx, r) => Some (JNumber lx, r)
            | None => None
            end
      end
  end
with parse_elements (fuel : nat) (s : string) : option (list json * string) :=
  match fuel with
  | O => None
  | S fuel' =>
      match parse_value fuel' s with
      | Some (v, r) =>
          match skip_ws r with
          | String c rest =>
              if Ascii.eqb c "," then
                match parse_elements fuel' rest with
                | Some (vs, r') => Some (v :: vs, r')
                | None => None
                end
              else if Ascii.eqb c "]" then Some ([v], rest)
              else None
          | EmptyString => None
          end
      | None => None
      end
  end
with parse_members (fuel : nat) (s : string) : option (list (string * json) * string) :=
  match fuel with
  | O => None
  | S fuel' =>
      match skip_ws s with
      | String q rest =>
          if Ascii.eqb q dquote then
            match parse_string rest with
            | Some (key, r) =>
                match skip_ws r with
                | String colon r1 =>
                    if Ascii.eqb colon ":" then
                      match parse_value fuel' r1 with
                      | Some (v, r2) =>
                          match skip_ws r2 with
                          | String c r3 =>
                              if Ascii.eqb c "," then
                                match parse_members fuel' r3 with
                                | Some (ms, r') => Some ((key, v) :: ms, r')
                                | None => None
                                end
                              else if Ascii.eqb c "}" then Some ([(key, v)], r3)
                              else None
                          | EmptyString => None
                          end
                      | None => None
                      end
                    else None
                | EmptyString => None
                end
            | None => None
            end
          else None
      | EmptyString => None
      end
  end.

(** A JSON text is one value between optional whitespace and nothing else. *)
Definition parse (s : string) : option json :=
  match parse_value (2 * String.length s + 2) s with
  | Some (v, rest) =>
      match skip_ws rest with
      | EmptyString => Some v
      | String _ _ => None
      end
  | None => None
  end.

Definition valid (s : string) : Prop := exists v, parse s = Some v.

(** A text that can stand between double quotes as it is: no byte of it
    needs escaping. *)
Fixpoint plain (s : string) : bool :=
  match s with
  | EmptyString => true
  | String c rest => negb (needs_escape c) && plain rest
  end.

(** The units of a text with no escape in it. *)
Fixpoint raws (s : string) : list unit_ :=
  match s with
  | EmptyString => []
  | String c rest => Raw c :: raws rest
  end.

(** The document with the single member [quote]. *)
Definition quote_object (q : string) : json := JObject [("quote", JString q)].

(** *** Well-formed UTF-8 (RFC 3629)

    The byte sequences of the Unicode standard's table of well-formed
    UTF-8, as an automaton: the state says which byte may come next. *)
Inductive ustate : Type :=
| UStart          (* at a character boundary *)
| UTail1          (* one continuation byte to come *)
| UTail2          (* two continuation bytes to come *)
| UTail3          (* three continuation bytes to come *)
| UE0             (* after E0: A0..BF, then one more *)
| UED             (* after ED: 80..9F, then one more *)
| UF0             (* after F0: 90..BF, then two more *)
| UF4.            (* after F4: 80..8F, then two more *)

Definition between (lo hi n : N) : bool := (lo <=? n)%N && (n <=? hi)%N.

Definition utf8_step (st : ustate) (c : ascii) : option ustate :=
  let n := N_of_ascii c in
  match st with
  | UStart =>
      if (n <? 128)%N then Some UStart
      else if between 194 223 n then Some UTail1
      else if (n =? 224)%N then Some UE0
      else if between 225 236 n || between 238 239 n then Some UTail2
      else if (n =? 237)%N then Some UED
      else if (n =? 240)%N then Some UF0
      else if between 241 243 n then Some UTail3
      else if (n =? 244)%N then Some UF4
      else None
  | UTail1 => if between 128 191 n then Some UStart else None
  | UTail2 => if between 128 191 n then Some UTail1 else None
  | UTail3 => if between 128 191 n then Some UTail2 else None
  | UE0 => if between 160 191 n then Some UTail1 else None
  | UED => if between 128 159 n then Some UTail1 else None
  | UF0 => if between 144 191 n then Some UTail2 else None
  | UF4 => if between 128 143 n then Some UTail2 else None
  end.

Fixpoint utf8_run (st : ustate) (s : string) : option ustate :=
  match s with
  | EmptyString => Some st
  | String c rest =>
      match utf8_step st c with
      | Some st' => utf8_run st' rest
      | None => None
      end
  end.

Definition at_boundary (st : ustate) : bool :=
  match st with UStart => true | _ => false end.

Definition well_formed (s : string) : bool :=
  match utf8_run UStart s with
  | Some st => at_boundary st
  | None => false
  end.

(** A JSON text in well-formed UTF-8, and its value. *)
Definition decode (s : string) : option json :=
  if well_formed s then parse s else None.

End Json.

(** ** The Go runtime, as far as the program uses it *)

Module Go.
Import Chars.
Local Open Scope Z_scope.

(** Go's [int] and [int64]. *)
Definition len {A : Type} (l : list A) : Z := Z.of_nat (List.length l).

(** A call either returns or panics. *)
Inductive result (A : Type) : Type :=
| Ok (a : A)
| Panic (msg : string).
Arguments Ok {A} a.
Arguments Panic {A} msg.

Definition is_ok {A : Type} (r : result A) : bool :=
  match r with Ok _ => true | Panic _ => false end.

(** *** math/rand

    The generator behind the top-level functions of [math/rand] is not
    part of the repository.  It is taken as a parameter: a type of
    generator states, the state [rand.Seed(s)] leaves the global source
    in (Go 1.22, the toolchain of the repository's build, where [Seed]
    resets the source), and the value and next state of [rand.Intn(n)]
    for [n > 0], with the contract of its documentation (a value in the
    half-open interval from 0 to [n]). *)
Record Generator : Type := {
  source : Type;
  seeded : Z -> source;
  intn : source -> Z -> Z * source;
  intn_range : forall (s : source) (n : Z), 0 < n -> 0 <= fst (intn s n) < n
}.

(** Calls on the global source, in program order (ghost log). *)
Inductive event : Type :=
| EvSeed (seed : Z)
| EvIntn (n : Z) (v : Z).

Definition is_seed (e : event) : bool :=
  match e with EvSeed _ => true | EvIntn _ _ => false end.

(** *** net/http *)

Record Request : Type := {
  Method : string;
  URL : string;
  Header : gmap string (list string);
  Body : string
}.

(** [strconv.ParseInt(s, 10, 64)]: an optional sign and decimal digits,
    at least one, whose value fits 64 bits. *)
Fixpoint digits_value (s : string) (acc : Z) : option Z :=
  match s with
  | EmptyString => Some acc
  | String c rest =>
      match digit_value c with
      | Some d => digits_value rest (acc * 10 + d)
      | None => None
      end
  end.

Definition ParseInt (s : string) : option Z :=
  match s with
  | EmptyString => None
  | String c rest =>
      let '(neg, ds) :=
        if Ascii.eqb c "+" then (false, rest)
        else if Ascii.eqb c "-" then (true, rest)
        else (false, s) in
      match ds with
      | EmptyString => None
      | String _ _ =>
          match digits_value ds 0 with
          | Some v =>
              let v' := if neg then - v else v in
              if (- 2 ^ 63 <=? v') && (v' <? 2 ^ 63) then Some v' else None
          | None => None
          end
      end
  end.

(** The writer the server gives a handler (net/http's [response]): the
    header map the handler edits; the status and the copy of the header
    map sent with the first write; the content length declared by then,
    if any; the count of the bytes offered to [Write]; the bytes
    accepted for the body. *)
Record ResponseWriter : Type := {
  hdr : gmap string (list string);
  sent : option (Z * gmap string (list string));
  limit : option Z;
  offered : Z;
  written : string
}.

(** The writer the server hands to a handler. *)
Definition freshWriter : ResponseWriter :=
  {| hdr := ∅; sent := None; limit := None; offered := 0;
     written := EmptyString |}.

(** [w.Header().Set(key, value)]: the key's values are replaced by the
    single [value].  ([Content-Type], the only key the program sets, is
    already in canonical form.) *)
Definition HeaderSet (key value : string) (w : ResponseWriter) : ResponseWriter :=
  {| hdr := <[key := [value]]> (hdr w); sent := sent w; limit := limit w;
     offered := offered w; written := written w |}.

(** [h.get(key)]: the first value of the key, or the empty string. *)
Definition header_get (key : string) (h : gmap string (list string)) : string :=
  match h !! key with
  | Some (v :: _) => v
  | _ => EmptyString
  end.

(** [w.WriteHeader(code)] for a final status: nothing when a status has
    been sent already; otherwise the status is fixed with a copy of the
    header map, and a [Content-Length] in it is taken as the declared
    length when it is a number and not negative, and removed from the
    handler's map when it is not. *)
Definition WriteHeader (code : Z) (w : ResponseWriter) : ResponseWriter :=
  match sent w with
  | Some _ => w
  | None =>
      let cl := header_get "Content-Length" (hdr w) in
      let declared :=
        match cl with
        | EmptyString => None
        | String _ _ =>
            match ParseInt cl with
            | Some v => if 0 <=? v then Some v else None
            | None => None
            end
        end in
      {| hdr := match cl, declared with
                | String _ _, None => delete "Content-Length" (hdr w)
                | _, _ => hdr w
                end;
         sent := Some (code, hdr w);
         limit := declared;
         offered := offered w;
         written := written w |}
  end.

(** [bodyAllowedForStatus]: no body with 1xx, 204 and 304. *)
Definition bodyAllowed (st : Z) : bool :=
  negb ((100 <=? st) && (st <=? 199) || (st =? 204) || (st =? 304)).

(** The writer takes the bytes [p], not empty, after the status has
    been sent: they are refused when the status allows no body, and,
    after they have been counted, when the count passes the declared
    length; otherwise they are added to the body. *)
Definition accept (p : string) (w : ResponseWriter) : ResponseWriter :=
  match sent w with
  | Some (st, _) =>
      if bodyAllowed st then
        let count := offered w + Z.of_nat (String.length p) in
        let over :=
          match limit w with
          | Some n => n <? count
          | None => false
          end in
        {| hdr := hdr w; sent := sent w; limit := limit w;
           offered := count;
           written := if over then written w else written w +:+ p |}
      else w
  | None => w
  end.

(** [w.Write(p)]: the first write sends status 200 with the headers set
    so far, and later changes of the header map do not reach the
    client.  Nothing more happens for an empty [p]. *)
Definition Write (p : string) (w : ResponseWriter) : ResponseWriter :=
  let w1 := WriteHeader 200 w in
  match p with
  | EmptyString => w1
  | String _ _ => accept p w1
  end.

(** A response: status, headers (those of the handler's header map;
    the ones the server adds of its own, [Date] and [Content-Length],
    are left out), body. *)
Record Response : Type := {
  status : Z;
  headers : gmap string (list string);
  payload : string
}.

(** What the writer holds for the client once the handler has returned
    (the server then sends status 200 if nothing was written). *)
Definition response_of (w : ResponseWriter) : Response :=
  match sent (WriteHeader 200 w) with
  | Some (st, h) => {| status := st; headers := h; payload := written w |}
  | None => {| status := 200; headers := hdr w; payload := written w |}
  end.

(** The server sends no body in answer to a [HEAD] request: the writes
    of the handler are accepted and dropped. *)
Definition isHead (r : Request) : bool := String.eqb (Method r) "HEAD".

Definition onWire (r : Request) (resp : Response) : Response :=
  if isHead r
  then {| status := status resp; headers := headers resp;
          payload := EmptyString |}
  else resp.

(** *** fmt

    [Sprintf] for string operands.  The verbs [%s] and [%v] paste the
    operand as it is and [%%] is a percent sign; a verb with no operand
    left and operands with no verb left are reported the way [fmt] does.
    Flags, width, precision and the verbs [%q], [%x], [%X] are not
    modelled: any other verb is rendered as a bad verb. *)
Definition verb (v : ascii) (a : string) : string :=
  if Ascii.eqb v "s" || Ascii.eqb v "v" then a
  else "%!" +:+ str1 v +:+ "(string=" +:+ a +:+ ")".

Fixpoint extras (args : list string) : string :=
  match args with
  | [] => EmptyString
  | [a] => "string=" +:+ a
  | a :: rest => "string=" +:+ a +:+ ", " +:+ extras rest
  end.

Definition extra (args : list string) : string :=
  match args with
  | [] => EmptyString
  | _ :: _ => "%!(EXTRA " +:+ extras args +:+ ")"
  end.

Fixpoint Sprintf (format : string) (args : list string) : string :=
  match format with
  | EmptyString => extra args
  | String c rest =>
      if Ascii.eqb c "%" then
        match rest with
        | EmptyString => "%!(NOVERB)" +:+ extra args
        | String v rest' =>
            if Ascii.eqb v "%" then String v (Sprintf rest' args)
            else
              match args with
              | a :: args' => verb v a +:+ Sprintf rest' args'
              | [] => "%!" +:+ str1 v +:+ "(MISSING)" +:+ Sprintf rest' []
              end
        end
      else String c (Sprintf rest args)
  end.

(** [fmt.Fprintf(w, format, args...)] writes the formatted text to [w]. *)
Definition Fprintf (w : ResponseWriter) (format : string) (args : list string)
  : ResponseWriter :=
  Write (Sprintf format args) w.

Section Runtime.
Context (G : Generator).

(** The state outside the handler: the clock reading [time.Now()] gives,
    the global source of [math/rand], standard output, whether the
    listening port can be bound, and the log of calls on the source. *)
Record World : Type := {
  clock : Z;
  rng : source G;
  stdout : string;
  can_bind : bool;
  randLog : list event
}.

(** Code that reads and changes the world and may panic. *)
Definition M (A : Type) : Type := World -> result A * World.

Definition ret {A : Type} (a : A) : M A := fun w => (Ok a, w).

Definition bind {A B : Type} (m : M A) (k : A -> M B) : M B :=
  fun w =>
    match m w with
    | (Ok a, w') => k a w'
    | (Panic msg, w') => (Panic msg, w')
    end.

Definition panic {A : Type} (msg : string) : M A := fun w => (Panic msg, w).

(** [time.Now().UnixNano()] *)
Definition UnixNano : M Z := fun w => (Ok (clock w), w).

(** [rand.Seed(seed)] *)
Definition Seed (seed : Z) : M unit :=
  fun w =>
    (Ok tt,
     {| clock := clock w;
        rng := seeded G seed;
        stdout := stdout w;
        can_bind := can_bind w;
        randLog := randLog w ++ [EvSeed seed] |}).

(** [rand.Intn(n)]: panics unless [n > 0]. *)
Definition Intn (n : Z) : M Z :=
  fun w =>
    if n <=? 0 then (Panic "invalid argument to Intn", w)
    else
      let '(v, s') := intn G (rng w) n in
      (Ok v,
       {| clock := clock w;
          rng := s';
          stdout := stdout w;
          can_bind := can_bind w;
          randLog := randLog w ++ [EvIntn n v] |}).

(** [l[i]]: a run-time panic when [i] is out of range. *)
Definition index {A : Type} (l : list A) (i : Z) : M A :=
  if (i <? 0) || (len l <=? i) then panic "runtime error: index out of range"
  else
    match l !! Z.to_nat i with
    | Some x => ret x
    | None => panic "runtime error: index out of range"
    end.

(** [fmt.Println(s)] *)
Definition Println (s : string) : M unit :=
  fun w =>
    (Ok tt,
     {| clock := clock w;
        rng := rng w;
        stdout := stdout w +:+ s +:+ str1 "010";
        can_bind := can_bind w;
        randLog := randLog w |}).

End Runtime.

Arguments clock {G} _.
Arguments rng {G} _.
Arguments stdout {G} _.
Arguments can_bind {G} _.
Arguments randLog {G} _.
Arguments ret {G A} _ _.
Arguments bind {G A B} _ _ _.
Arguments panic {G A} _ _.
Arguments UnixNano {G} _.
Arguments Seed {G} _ _.
Arguments Intn {G} _ _.
Arguments index {G A} _ _ _.
Arguments Println {G} _ _.

End Go.

Notation "x <- m ;; k" := (Go.bind m (fun x => k))
  (at level 100, m at next level, right associativity).

(** ** main.go *)

Import Chars Go.
Local Open Scope Z_scope.

(** The slice literal of [quoteHandler]. *)
Definition quotes : list string :=
  [ "The only way to do great work is to love what you do. - Steve Jobs";
    "The future belongs to those who believe in the beauty of their dreams. - Eleanor Roosevelt";
    "It does not matter how slowly you go as long as you do not stop. - Confucius";
    "Success is not final, failure is not fatal: it is the courage to continue that counts. - Winston Churchill";
    "Believe you can and you're halfway there. - Theodore Roosevelt" ].

(** The raw string literal passed to [fmt.Fprintf]: an opening brace,
    the key [quote] in double quotes, a colon and a space, the verb [%s]
    in double quotes, a closing brace. *)
Definition quoteFormat : string :=
  Eval vm_compute in
    "{" +:+ str1 dquote +:+ "quote" +:+ str1 dquote +:+ ": "
        +:+ str1 dquote +:+ "%s" +:+ str1 dquote +:+ "}".

(** The variables of [quoteHandler]: its two parameters and its two
    locals ([nil] and the empty string are Go's zero values). *)
Record Frame : Type := {
  v_w : ResponseWriter;
  v_r : Request;
  v_quotes : list string;
  v_randomQuote : string
}.

Definition enter (w : ResponseWriter) (r : Request) : Frame :=
  {| v_w := w; v_r := r; v_quotes := []; v_randomQuote := EmptyString |}.

Section Program.
Context {G : Generator}.

Definition stmt : Type := Frame -> M G Frame.
Definition Handler : Type := ResponseWriter -> Request -> M G ResponseWriter.

(** [quotes := []string{ ... }] *)
Definition declQuotes (literal : list string) : stmt :=
  fun f =>
    ret {| v_w := v_w f; v_r := v_r f;
           v_quotes := literal; v_randomQuote := v_randomQuote f |}.

(** [rand.Seed(time.Now().UnixNano())] *)
Definition seedStmt : stmt :=
  fun f =>
    now <- UnixNano ;;
    _ <- Seed now ;;
    ret f.

(** [randomQuote := quotes[rand.Intn(len(quotes))]] *)
Definition pickStmt : stmt :=
  fun f =>
    i <- Intn (len (v_quotes f)) ;;
    q <- index (v_quotes f) i ;;
    ret {| v_w := v_w f; v_r := v_r f;
           v_quotes := v_quotes f; v_randomQuote := q |}.

(** [w.Header().Set("Content-Type", "application/json")] *)
Definition headerStmt : stmt :=
  fun f =>
    ret {| v_w := HeaderSet "Content-Type" "application/json" (v_w f);
           v_r := v_r f;
           v_quotes := v_quotes f; v_randomQuote := v_randomQuote f |}.

(** [fmt.Fprintf(w, `{"quote": "%s"}`, randomQuote)] (its results, the
    byte count and the error, are discarded by the program). *)
Definition writeStmt : stmt :=
  fun f =>
    ret {| v_w := Fprintf (v_w f) quoteFormat [v_randomQuote f];
           v_r := v_r f;
           v_quotes := v_quotes f; v_randomQuote := v_randomQuote f |}.

(** The body of [quoteHandler], statement by statement. *)
Definition body (literal : list string) : list stmt :=
  [declQuotes literal; seedStmt; pickStmt; headerStmt; writeStmt].

Fixpoint exec (stmts : list stmt) (f : Frame) : M G Frame :=
  match stmts with
  | [] => ret f
  | s :: rest => f' <- s f ;; exec rest f'
  end.

(** [quoteHandler] with the slice literal as a parameter. *)
Definition quoteHandlerWith (literal : list string) : Handler :=
  fun w r =>
    f <- exec (body literal) (enter w r) ;;
    ret (v_w f).

(** [func quoteHandler(w http.ResponseWriter, r *http.Request)] *)
Definition quoteHandler : Handler := quoteHandlerWith quotes.

(** The server's call of a handler for a request it dispatches to it:
    the handler gets a fresh writer, and the result is the response the
    writer holds when the handler returns, before the server looks at
    the method ([exchange] below).  (When the handler panics the server
    drops the connection: there is no response.) *)
Definition serveHTTP (h : Handler) (r : Request) : M G Response :=
  w <- h freshWriter r ;;
  ret (response_of w).

(** What the client of a dispatched request receives. *)
Definition exchange (h : Handler) (r : Request) : M G Response :=
  resp <- serveHTTP h r ;;
  ret (onWire r resp).

Definition at_time (t : Z) (w : World G) : World G :=
  {| clock := t; rng := rng w; stdout := stdout w;
     can_bind := can_bind w; randLog := randLog w |}.

(** The requests dispatched to a handler one after the other, each
    with the clock reading at its dispatch. *)
Fixpoint serveAll (h : Handler) (reqs : list (Z * Request)) (w : World G)
  : list (result Response) * World G :=
  match reqs with
  | [] => ([], w)
  | (t, r) :: rest =>
      let '(res, w1) := serveHTTP h r (at_time t w) in
      let '(out, w2) := serveAll h rest w1 in
      (res :: out, w2)
  end.

(** The requests a server receives, one after the other.  Which of
    them the server dispatches to the handler registered for [/] is
    decided inside net/http (the default mux answers a path that is not
    clean with a redirect, and the server answers [OPTIONS *] itself):
    that decision is the parameter [route].  A request that is not
    dispatched is answered without the handler ([None]: that answer is
    not modelled) and leaves the world as it is; a dispatched one gets
    what [exchange] gives. *)
Fixpoint exchangeAll (route : Request -> bool) (h : Handler)
  (reqs : list (Z * Request)) (w : World G)
  : list (option (result Response)) * World G :=
  match reqs with
  | [] => ([], w)
  | (t, r) :: rest =>
      if route r then
        let '(res, w1) := exchange h r (at_time t w) in
        let '(out, w2) := exchangeAll route h rest w1 in
        (Some res :: out, w2)
      else
        let '(out, w2) := exchangeAll route h rest w in
        (None :: out, w2)
  end.

(** The process after [main] has run its three statements: serving
    with the registered routes, or gone. *)
Inductive Process : Type :=
| Serving (mux : list (string * Handler)) (addr : string)
| Exited.

(** [http.HandleFunc(pattern, handler)] on the default mux. *)
Definition HandleFunc (pattern : string) (h : Handler)
  (mux : list (string * Handler)) : list (string * Handler) :=
  mux ++ [(pattern, h)].

(** [http.ListenAndServe(addr, nil)]: serves the default mux when the
    port can be bound; otherwise it returns an error, which [main]
    discards before it returns. *)
Definition ListenAndServe (addr : string) (mux : list (string * Handler))
  (w : World G) : Process :=
  if can_bind w then Serving mux addr else Exited.

(** [main] with the slice literal of the handler as a parameter. *)
Definition mainWith (literal : list string) (w : World G) : Process * World G :=
  let mux := HandleFunc "/" (quoteHandlerWith literal) [] in
  let '(_, w1) := Println "Starting Quote API server on port 8080..." w in
  (ListenAndServe ":8080" mux w1, w1).

(** [func main()] *)
Definition main (w : World G) : Process * World G := mainWith quotes w.

End Program.

(** ** A concrete generator

    A linear congruential generator, to run the program on. *)
Definition lcg_next (s : Z) : Z :=
  (s * 6364136223846793005 + 1442695040888963407) mod 2 ^ 64.

Definition lcg_intn (s n : Z) : Z * Z :=
  let s' := lcg_next s in ((s' / 2 ^ 33) mod n, s').

Definition lcg : Generator :=
  {| source := Z;
     seeded := fun seed => seed mod 2 ^ 64;
     intn := lcg_intn;
     intn_range := fun s n H => Z.mod_pos_bound (lcg_next s / 2 ^ 33) n H |}.

Definition world0 (t : Z) : World lcg :=
  Build_World lcg t 1%Z EmptyString true [].

Definition getRoot : Request :=
  {| Method := "GET"; URL := "/"; Header := ∅; Body := EmptyString |}.

Definition postOther : Request :=
  {| Method := "POST"; URL := "/api/v1/quotes?id=3";
     Header := {[ "Content-Type" := ["text/plain"] ]};
     Body := "anything" |}.

(** The text [quoteFormat] turns a string operand into. *)
Definition render (q : string) : string :=
  String "{" (String dquote ("quote" +:+ String dquote (String ":" (String " "
    (String dquote (q +:+ String dquote "}")))))).


Definition injected : string :=
  Eval vm_compute in
    "x" +:+ str1 dquote +:+ ", " +:+ str1 dquote +:+ "admin" +:+ str1 dquote
        +:+ ": " +:+ str1 dquote +:+ "y".




Section Draw.
Context {G : Generator}.

(** The value the handler draws in world [w]: the first draw of the
    source seeded with the clock reading. *)
Definition drawn (literal : list string) (w : World G) : Z :=
  fst (intn G (seeded G (clock w)) (len literal)).

(** The world a run of the handler leaves behind. *)
Definition after (literal : list string) (w : World G) : World G :=
  {| clock := clock w;
     rng := snd (intn G (seeded G (clock w)) (len literal));
     stdout := stdout w;
     can_bind := can_bind w;
     randLog := (randLog w ++ [EvSeed (clock w)])
                  ++ [EvIntn (len literal) (drawn literal w)] |}.

(** How many times the source has been seeded. *)
Definition seedings (w : World G) : nat :=
  List.length (List.filter is_seed (randLog w)).

(** A statement that, run with a non-empty [quotes], returns and leaves
    [quotes] as it was. *)
Definition keeps_quotes (s : stmt (G:=G)) : Prop :=
  forall (f : Frame) (w : World G),
    v_quotes f <> [] ->
    exists (f' : Frame) (w' : World G),
      s f w = (Ok f', w') /\ v_quotes f' = v_quotes f.

(** *** Runs in progress

    Several requests handled at once: each run of the handler has its
    own frame (and its own writer in it) and the statements it has
    still to execute; the world is shared.  A schedule names, step by
    step, the run that executes its next statement and the clock
    reading at that step.  Each statement touches the world in at most
    one call of [math/rand], which the library runs under its lock. *)
Record Run : Type := {
  frame : Frame;
  todo : list (stmt (G:=G));
  crashed : option string
}.

Definition spawn (literal : list string) (r : Request) : Run :=
  {| frame := enter freshWriter r; todo := body literal; crashed := None |}.

Definition step (i : nat) (t : Z) (runs : list Run) (w : World G)
  : list Run * World G :=
  match runs !! i with
  | Some run =>
      match crashed run, todo run with
      | None, s :: rest =>
          match s (frame run) (at_time t w) with
          | (Ok f', w') =>
              (<[i := {| frame := f'; todo := rest; crashed := None |}]> runs, w')
          | (Panic msg, w') =>
              (<[i := {| frame := frame run; todo := rest; crashed := Some msg |}]> runs,
               w')
          end
      | _, _ => (runs, w)
      end
  | None => (runs, w)
  end.

Fixpoint interleave (schedule : list (nat * Z)) (runs : list Run) (w : World G)
  : list Run * World G :=
  match schedule with
  | [] => (runs, w)
  | (i, t) :: rest =>
      let '(runs', w') := step i t runs w in
      interleave rest runs' w'
  end.

(** What holds of the frame of a run of [quoteHandler] that has
    executed [j] statements. *)
Definition stage (j : nat) (f : Frame) : Prop :=
  match j with
  | 0%nat => v_w f = freshWriter
  | 1%nat | 2%nat => v_w f = freshWriter /\ v_quotes f = quotes
  | 3%nat =>
      v_w f = freshWriter /\ v_quotes f = quotes /\ v_randomQuote f ∈ quotes
  | 4%nat =>
      v_w f = HeaderSet "Content-Type" "application/json" freshWriter /\
      v_randomQuote f ∈ quotes
  | _ =>
      v_w f = Fprintf (HeaderSet "Content-Type" "application/json" freshWriter)
                quoteFormat [v_randomQuote f] /\
      v_randomQuote f ∈ quotes
  end.

Definition on_track (run : Run) : Prop :=
  crashed run = None /\
  exists j : nat, todo run = drop j (body quotes) /\ stage j (frame run).

End Draw.

(** *** Further notions for the properties of the whole program *)

(** The response the handler builds for the entry [q] on a fresh writer. *)
Definition jsonResponse (q : string) : Response :=
  {| status := 200;
     headers := <["Content-Type" := ["application/json"]]> ∅;
     payload := render q |}.

(** The line [main] prints. *)
Definition startupLine : string :=
  "Starting Quote API server on port 8080..." +:+ str1 "010".

Section Worlds.
Context {G : Generator}.

(** The world with another state of the random source. *)
Definition with_rng (s : source G) (w : World G) : World G :=
  {| clock := clock w; rng := s; stdout := stdout w;
     can_bind := can_bind w; randLog := randLog w |}.

(** The two calls on the source a request dispatched at [t] makes. *)
Definition calls_at (t : Z) : list event :=
  [EvSeed t; EvIntn 5 (fst (intn G (seeded G t) 5))].

End Worlds.

(** A text of two lines. *)
Definition twoLines : string :=
  Eval vm_compute in "first line" +:+ str1 "010" +:+ "second line".

(** A writer a middleware has put a header on, and one it has already
    written to. *)
Definition taggedWriter : ResponseWriter :=
  {| hdr := {[ "X-Request-Id" := ["42"]; "Content-Type" := ["text/html"] ]} ;
     sent := None; limit := None; offered := 0; written := EmptyString |}.

Definition startedWriter : ResponseWriter :=
  {| hdr := {[ "Content-Type" := ["text/html"] ]};
     sent := Some (200, {[ "Content-Type" := ["text/html"] ]});
     limit := None; offered := 3; written := "<p>" |}.

(** A [HEAD] request for the root. *)
Definition headRoot : Request :=
  {| Method := "HEAD"; URL := "/"; Header := ∅; Body := EmptyString |}.

(** The request [OPTIONS *], which the server answers itself, and a
    routing decision that is right for the three sample requests: the
    root path is dispatched. *)
Definition optionsStar : Request :=
  {| Method := "OPTIONS"; URL := "*"; Header := ∅; Body := EmptyString |}.

Definition cleanRoot (r : Request) : bool := String.eqb (URL r) "/".

(** A world in which the port is taken. *)
Definition worldBusy (t : Z) : World lcg :=
  Build_World lcg t 1%Z EmptyString false [].

(** * Properties *)

(** ** JSON strings *)

Import Json.

Lemma decode_raws (s : string) : decode_units (raws s) = s.
Proof. induction s as [|c s IH]; simpl; [reflexivity | now rewrite IH]. Qed.

Lemma needs_escape_false (c : ascii) :
  needs_escape c = false ->
  Ascii.eqb c dquote = false /\ Ascii.eqb c backslash = false /\ is_control c = false.
Proof.
  unfold needs_escape. intros H.
  apply orb_false_iff in H as [H Hc]. apply orb_false_iff in H as [Hq Hb].
  auto.
Qed.

Lemma scan_string_plain (s rest : string) :
  plain s = true ->
  scan_string (s +:+ String dquote rest) = Some (raws s, rest).
Proof.
  induction s as [|c s IH]; intros Hs.
  - reflexivity.
  - simpl in Hs. apply andb_true_iff in Hs as [Hc Hs].
    apply negb_true_iff, needs_escape_false in Hc as (Hq & Hb & Hk).
    change (String c s +:+ String dquote rest)
      with (String c (s +:+ String dquote rest)).
    cbn [scan_string]. rewrite Hq, Hb, Hk, (IH Hs). reflexivity.
Qed.

Lemma parse_string_plain (s rest : string) :
  plain s = true ->
  parse_string (s +:+ String dquote rest) = Some (s, rest).
Proof.
  intros Hs. unfold parse_string.
  rewrite (scan_string_plain _ _ Hs), decode_raws. reflexivity.
Qed.

(** The parser on the fixed part of a rendered body, one level each. *)
Lemma parse_value_open_brace (k : nat) (rest : string) :
  parse_value (S k) (String "{" (String dquote rest))
  = match parse_members k (String dquote rest) with
    | Some (ms, r) => Some (JObject ms, r)
    | None => None
    end.
Proof. reflexivity. Qed.

Lemma parse_value_space_quote (k : nat) (rest : string) :
  parse_value (S k) (String " " (String dquote rest))
  = match parse_string rest with
    | Some (str, r) => Some (JString str, r)
    | None => None
    end.
Proof. reflexivity. Qed.

Lemma parse_members_quote_key (k : nat) (rest : string) :
  parse_members (S k) (String dquote ("quote" +:+ String dquote (String ":" rest)))
  = match parse_value k rest with
    | Some (v, r2) =>
        match skip_ws r2 with
        | String c r3 =>
            if Ascii.eqb c "," then
              match parse_members k r3 with
              | Some (ms, r') => Some (("quote", v) :: ms, r')
              | None => None
              end
            else if Ascii.eqb c "}" then Some ([("quote", v)], r3)
            else None
        | EmptyString => None
        end
    | None => None
    end.
Proof.
  cbn [parse_members skip_ws is_ws Ascii.eqb Bool.eqb orb andb dquote].
  rewrite (parse_string_plain "quote" _ eq_refl). reflexivity.
Qed.

(** The parser on a rendered body, down to the pasted text. *)
Lemma parse_value_render_eq (k : nat) (q : string) :
  parse_value (S (S (S k))) (render q)
  = match parse_string (q +:+ String dquote "}") with
    | Some (str, r) =>
        match skip_ws r with
        | String c r3 =>
            if Ascii.eqb c "," then
              match parse_members (S k) r3 with
              | Some (ms, r') => Some (JObject (("quote", JString str) :: ms), r')
              | None => None
              end
            else if Ascii.eqb c "}" then Some (JObject [("quote", JString str)], r3)
            else None
        | EmptyString => None
        end
    | None => None
    end.
Proof.
  unfold render.
  rewrite parse_value_open_brace, parse_members_quote_key, parse_value_space_quote.
  destruct (parse_string (q +:+ String dquote "}")) as [[str r]|]; [| reflexivity].
  destruct (skip_ws r) as [|c r3]; [reflexivity |].
  destruct (Ascii.eqb c ",").
  - destruct (parse_members (S k) r3) as [[ms r']|]; reflexivity.
  - destruct (Ascii.eqb c "}"); reflexivity.
Qed.

Lemma parse_value_render (k : nat) (q : string) :
  plain q = true ->
  parse_value (S (S (S k))) (render q) = Some (quote_object q, EmptyString).
Proof.
  intros Hq.
  rewrite parse_value_render_eq, (parse_string_plain q "}" Hq). reflexivity.
Qed.

Lemma render_length (q : string) :
  exists k, (2 * String.length (render q) + 2 = S (S (S k)))%nat.
Proof.
  unfold render.
  match goal with
  | |- context [String.length (String ?c ?s)] =>
      exists (2 * String.length s + 1)%nat;
      change (String.length (String c s)) with (S (String.length s))
  end.
  lia.
Qed.

(** A plain text pasted into the format gives the JSON document with
    the single member [quote] holding that text. *)
Lemma parse_render (q : string) :
  plain q = true -> parse (render q) = Some (quote_object q).
Proof.
  intros Hq. unfold parse.
  destruct (render_length q) as [k ->].
  rewrite (parse_value_render k q Hq). reflexivity.
Qed.

Lemma Sprintf_quoteFormat (q : string) : Sprintf quoteFormat [q] = render q.
Proof. reflexivity. Qed.


(** *** Reading back a pasted text *)

Lemma length_append (s t : string) :
  String.length (s +:+ t) = (String.length s + String.length t)%nat.
Proof.
  induction s as [|c s IH]; [reflexivity |].
  change (String c s +:+ t) with (String c (s +:+ t)).
  cbn [String.length]. now rewrite IH.
Qed.

Lemma utf8_length (cp : N) : (String.length (utf8 cp) <= 4)%nat.
Proof.
  unfold utf8.
  repeat match goal with |- context [if ?b then _ else _] => destruct b end;
    cbn [String.length str1]; lia.
Qed.

Lemma low_not_high (v : N) : is_low_surrogate v = true -> is_high_surrogate v = false.
Proof.
  unfold is_low_surrogate, is_high_surrogate. intros H.
  apply andb_true_iff in H as [H _]. apply N.leb_le in H.
  apply andb_false_iff. right. apply N.ltb_ge. exact H.
Qed.

(** An escape [\uXXXX] takes six bytes of input and gives at most four. *)
Lemma decode_esc_length (u : N) (us : list unit_) :
  (String.length (decode_units (Esc u :: us)) <= 4 + String.length (decode_units us))%nat.
Proof.
  cbn [decode_units].
  destruct (is_high_surrogate u).
  - destruct us as [| [c | v] rest'].
    + rewrite length_append. change (String.length (utf8 65533)) with 3%nat. lia.
    + rewrite length_append. change (String.length (utf8 65533)) with 3%nat. lia.
    + destruct (is_low_surrogate v) eqn:Ev.
      * cbn [decode_units]. rewrite (low_not_high v Ev), Ev.
        rewrite !length_append.
        pose proof (utf8_length (65536 + (u - 55296) * 1024 + (v - 56320))%N).
        lia.
      * rewrite length_append. change (String.length (utf8 65533)) with 3%nat. lia.
  - destruct (is_low_surrogate u); rewrite length_append.
    + change (String.length (utf8 65533)) with 3%nat. lia.
    + pose proof (utf8_length u). lia.
Qed.

(** What [scan_string] returns is never longer than what it consumed,
    the closing quote apart; and it is as long only when every byte was
    copied as it is. *)
Lemma scan_string_length (n : nat) (s : string) (us : list unit_) (r : string) :
  (String.length s <= n)%nat ->
  scan_string s = Some (us, r) ->
  (String.length (decode_units us) + String.length r + 1 <= String.length s)%nat /\
  ((String.length (decode_units us) + String.length r + 1 = String.length s)%nat ->
   plain (decode_units us) = true).
Proof.
  revert s us r. induction n as [|n IH]; intros s us r Hn Hs.
  { destruct s; [discriminate | cbn [String.length] in Hn; lia]. }
  destruct s as [|c rest]; [discriminate |].
  cbn [String.length] in Hn. cbn [scan_string] in Hs.
  destruct (Ascii.eqb c dquote) eqn:Eq.
  { injection Hs as <- <-. cbn [decode_units String.length]. split; [lia | reflexivity]. }
  destruct (Ascii.eqb c backslash) eqn:Eb.
  - destruct rest as [|e rest1]; [discriminate |].
    destruct (Ascii.eqb e "u").
    + destruct rest1 as [|h1 [|h2 [|h3 [|h4 rest2]]]]; try discriminate.
      destruct (hex4 h1 h2 h3 h4) as [u|]; [| discriminate].
      destruct (scan_string rest2) as [[us' r']|] eqn:E2; [| discriminate].
      injection Hs as <- <-.
      cbn [String.length] in Hn.
      destruct (IH rest2 us' r' ltac:(lia) E2) as [Hle _].
      pose proof (decode_esc_length u us').
      cbn [String.length]. split; lia.
    + destruct (simple_escape e) as [b|]; [| discriminate].
      destruct (scan_string rest1) as [[us' r']|] eqn:E1; [| discriminate].
      injection Hs as <- <-.
      cbn [String.length] in Hn.
      destruct (IH rest1 us' r' ltac:(lia) E1) as [Hle _].
      cbn [decode_units String.length]. split; lia.
  - destruct (is_control c) eqn:Ek; [discriminate |].
    destruct (scan_string rest) as [[us' r']|] eqn:E1; [| discriminate].
    injection Hs as <- <-.
    destruct (IH rest us' r' ltac:(lia) E1) as [Hle Heq].
    cbn [decode_units String.length plain]. split; [lia |].
    intros H. unfold needs_escape. rewrite Eq, Eb, Ek. cbn [orb negb andb].
    apply Heq. lia.
Qed.

Lemma skip_ws_nonempty (r : string) (c : ascii) (r' : string) :
  skip_ws r = String c r' -> (1 <= String.length r)%nat.
Proof. destruct r; [discriminate | cbn [String.length]; lia]. Qed.

(** A pasted text that is read back as itself has no byte that needs
    escaping. *)
Lemma parse_string_exact (q r : string) :
  parse_string (q +:+ String dquote "}") = Some (q, r) ->
  (1 <= String.length r)%nat ->
  plain q = true.
Proof.
  unfold parse_string. intros H Hr.
  destruct (scan_string (q +:+ String dquote "}")) as [[us r']|] eqn:E; [| discriminate].
  injection H as Hq ->.
  destruct (scan_string_length _ _ us r (Nat.le_refl _) E) as [Hle Heq].
  rewrite length_append in Hle, Heq. cbn [String.length] in Hle, Heq.
  rewrite Hq in Hle, Heq. rewrite <- Hq at 1. rewrite Hq. apply Heq. lia.
Qed.

Lemma parse_render_inv (q : string) :
  parse (render q) = Some (quote_object q) -> plain q = true.
Proof.
  unfold parse. destruct (render_length q) as [k ->].
  rewrite parse_value_render_eq.
  destruct (parse_string (q +:+ String dquote "}")) as [[str r]|] eqn:E; [| discriminate].
  destruct (skip_ws r) as [|c r3] eqn:Er; [discriminate |].
  pose proof (skip_ws_nonempty r c r3 Er) as Hr.
  intros H.
  assert (str = q) as ->.
  { destruct (Ascii.eqb c ",").
    - destruct (parse_members (S k) r3) as [[ms r']|]; [| discriminate].
      destruct (skip_ws r'); [| discriminate].
      unfold quote_object in H. congruence.
    - destruct (Ascii.eqb c "}"); [| discriminate].
      destruct (skip_ws r3); [| discriminate].
      unfold quote_object in H. congruence. }
  exact (parse_string_exact q r E Hr).
Qed.

(** The body is the document [{"quote": q}] exactly when [q] is plain. *)
Lemma parse_render_iff (q : string) :
  parse (render q) = Some (quote_object q) <-> plain q = true.
Proof. split; [apply parse_render_inv | apply parse_render]. Qed.

(** *** Well-formed UTF-8 *)

Lemma utf8_run_app (st : ustate) (a b : string) :
  utf8_run st (a +:+ b)
  = match utf8_run st a with
    | Some st' => utf8_run st' b
    | None => None
    end.
Proof.
  revert st. induction a as [| c a IH]; intros st; [reflexivity |].
  change (String c a +:+ b) with (String c (a +:+ b)). cbn [utf8_run].
  destruct (utf8_step st c); [apply IH | reflexivity].
Qed.

(** The fixed part of a rendered body is ASCII: the body is well-formed
    UTF-8 exactly when the pasted text is. *)
Lemma well_formed_render (q : string) : well_formed (render q) = well_formed q.
Proof.
  unfold well_formed, render.
  change (utf8_run UStart
            (String "{" (String dquote ("quote" +:+ String dquote (String ":"
               (String " " (String dquote (q +:+ String dquote "}"))))))))
    with (utf8_run UStart ("quote" +:+ String dquote (String ":"
            (String " " (String dquote (q +:+ String dquote "}")))))).
  rewrite utf8_run_app.
  change (utf8_run UStart "quote") with (Some UStart). cbv iota.
  change (utf8_run UStart (String dquote (String ":" (String " "
            (String dquote (q +:+ String dquote "}"))))))
    with (utf8_run UStart (q +:+ String dquote "}")).
  rewrite utf8_run_app.
  destruct (utf8_run UStart q) as [[] |]; reflexivity.
Qed.

(** The body is read, as well-formed UTF-8, as the document
    [{"quote": q}] exactly when [q] is plain and well-formed UTF-8. *)
Lemma decode_render_iff (q : string) :
  decode (render q) = Some (quote_object q)
  <-> plain q = true /\ well_formed q = true.
Proof.
  unfold decode. rewrite well_formed_render.
  destruct (well_formed q).
  - rewrite parse_render_iff. tauto.
  - split; [discriminate | intros [_ H]; discriminate H].
Qed.

Lemma quotes_well_formed : Forall (fun q => well_formed q = true) quotes.
Proof. repeat constructor. Qed.

Example well_formed_samples :
  well_formed "plain" = true /\
  well_formed (String "195" (str1 "169")) = true /\
  well_formed (str1 "255") = false /\
  well_formed (String "192" (str1 "128")) = false /\
  well_formed (String "237" (String "160" (str1 "128"))) = false /\
  well_formed (str1 "195") = false.
Proof. vm_compute. repeat split; reflexivity. Qed.

(** A byte that is not UTF-8 is plain for [parse] and refused by
    [decode]. *)
Example decode_refuses_ill_formed :
  parse (render (str1 "255")) = Some (quote_object (str1 "255")) /\
  decode (render (str1 "255")) = None.
Proof. vm_compute. split; reflexivity. Qed.

(** *** The parser on some texts *)

Example parse_nested :
  Json.parse "[1, -2.5e+10, true, null, {}, [[]]]"
  = Some (JArray [JNumber "1"; JNumber "-2.5e+10"; JBool true; JNull;
                  JObject []; JArray [JArray []]]).
Proof. vm_compute. reflexivity. Qed.

Example parse_escapes :
  Json.parse (str1 dquote +:+ "a\u00e9\n\ud83d\ude00" +:+ str1 dquote)
  = Some (JString (String "a" (String "195" (String "169" (String "010"
            (String "240" (String "159" (String "152" (str1 "128"))))))))).
Proof. vm_compute. reflexivity. Qed.

Example parse_rejects :
  Json.parse "[1,]" = None /\ Json.parse "01" = None /\
  Json.parse "{} x" = None /\ Json.parse "1." = None /\
  Json.parse (str1 dquote +:+ "a") = None.
Proof. vm_compute. repeat split; reflexivity. Qed.

(** ** One run of the handler *)

(** The program on a request, with the sample generator. *)
Example quoteHandler_at_lcg :
  fst (serveHTTP quoteHandler getRoot (world0 1700000000000000000))
  = Ok {| status := 200;
          headers := <["Content-Type" := ["application/json"]]> ∅;
          payload := render "Success is not final, failure is not fatal: it is the courage to continue that counts. - Winston Churchill" |}.
Proof. vm_compute. reflexivity. Qed.

Section HandlerFacts.
Context {G : Generator}.

Lemma len_pos (literal : list string) : literal <> [] -> 0 < len literal.
Proof. destruct literal; [congruence | unfold len; simpl; lia]. Qed.

Lemma drawn_range (literal : list string) (w : World G) :
  literal <> [] -> 0 <= drawn literal w < len literal.
Proof. intros H. apply (intn_range G), len_pos, H. Qed.

Lemma drawn_lookup (literal : list string) (w : World G) :
  literal <> [] -> exists q, literal !! Z.to_nat (drawn literal w) = Some q.
Proof.
  intros H. apply lookup_lt_is_Some.
  pose proof (drawn_range literal w H) as Hr. unfold len in Hr. lia.
Qed.

(** With a non-empty slice the handler returns: the writer carries the
    header and the rendering of the entry at the drawn index. *)
Lemma quoteHandlerWith_run (literal : list string) (wr : ResponseWriter)
  (r : Request) (w : World G) (q : string) :
  literal <> [] ->
  literal !! Z.to_nat (drawn literal w) = Some q ->
  quoteHandlerWith literal wr r w
  = (Ok (Fprintf (HeaderSet "Content-Type" "application/json" wr) quoteFormat [q]),
     after literal w).
Proof.
  intros Hne Hq.
  pose proof (drawn_range literal w Hne) as Hr.
  pose proof (len_pos literal Hne) as Hpos.
  unfold quoteHandlerWith, body, exec, bind, declQuotes, seedStmt, pickStmt,
    headerStmt, writeStmt, ret, enter, UnixNano, Seed, Intn, index, bind, ret, panic.
  cbn [v_w v_r v_quotes v_randomQuote clock rng stdout can_bind randLog].
  unfold drawn in Hr, Hq. unfold after, drawn.
  destruct (intn G (seeded G (clock w)) (len literal)) as [v s'] eqn:E.
  cbn [fst snd] in *.
  destruct (len literal <=? 0) eqn:E0; [lia |].
  destruct ((v <? 0) || (len literal <=? v)) eqn:E1.
  { apply orb_true_iff in E1 as [E1 | E1]; lia. }
  rewrite Hq. reflexivity.
Qed.

(** With an empty slice the handler panics in [rand.Intn], after it
    has reseeded. *)
Lemma quoteHandlerWith_empty (wr : ResponseWriter) (r : Request) (w : World G) :
  fst (quoteHandlerWith [] wr r w) = Panic "invalid argument to Intn".
Proof. reflexivity. Qed.

Lemma quotes_nonempty : quotes <> [].
Proof. discriminate. Qed.

(** The response to a dispatched request. *)
Lemma serveHTTP_run (literal : list string) (r : Request) (w : World G)
  (q : string) :
  literal <> [] ->
  literal !! Z.to_nat (drawn literal w) = Some q ->
  serveHTTP (quoteHandlerWith literal) r w
  = (Ok {| status := 200;
           headers := <["Content-Type" := ["application/json"]]> ∅;
           payload := render q |},
     after literal w).
Proof.
  intros Hne Hq. unfold serveHTTP, bind.
  rewrite (quoteHandlerWith_run literal freshWriter r w q Hne Hq).
  reflexivity.
Qed.

End HandlerFacts.

Lemma quotes_plain : Forall (fun q => Json.plain q = true) quotes.
Proof. repeat constructor. Qed.

(** ** The response of the program *)

(** C1 (counterexample). A [HEAD] request dispatched to the handler:
    the response has status 200 and the JSON content type, and no body;
    the empty body is not JSON. *)
Lemma head_request_gets_no_body :
  exists resp : Response,
    fst (exchange quoteHandler headRoot (world0 0)) = Ok resp /\
    status resp = 200 /\
    headers resp !! "Content-Type" = Some ["application/json"] /\
    payload resp = EmptyString /\
    Json.parse (payload resp) = None /\
    ~ Json.valid (payload resp).
Proof.
  eexists. split; [| split; [| split; [| split; [| split]]]].
  - unfold exchange, serveHTTP, bind. vm_compute. reflexivity.
  - reflexivity.
  - vm_compute. reflexivity.
  - reflexivity.
  - reflexivity.
  - intros [v Hv]. vm_compute in Hv. discriminate Hv.
Qed.

(** C1 (amended). For every request dispatched to the handler, whatever
    the clock and the state of the random source, the handler returns
    and the response has status 200 and the content type
    [application/json]; the body the handler writes is, in well-formed
    UTF-8, a JSON object with exactly one member, [quote], whose value
    is a string of the program's list of quotes; the client receives
    that body, unless the method is [HEAD]: then it receives the status
    and the headers with an empty body. *)
Theorem response_is_json_quote_unless_head (G : Generator) (r : Request)
  (w : World G) :
  exists (resp : Response) (q : string),
    fst (exchange quoteHandler r w) = Ok resp /\
    status resp = 200 /\
    headers resp !! "Content-Type" = Some ["application/json"] /\
    q ∈ quotes /\
    fst (serveHTTP quoteHandler r w)
    = Ok {| status := 200; headers := headers resp; payload := render q |} /\
    Json.decode (render q) = Some (JObject [("quote", JString q)]) /\
    payload resp = (if isHead r then EmptyString else render q).
Proof.
  destruct (drawn_lookup quotes w quotes_nonempty) as [q Hq].
  assert (Hin : q ∈ quotes) by (eapply list_elem_of_lookup_2; exact Hq).
  exists (onWire r {| status := 200;
                      headers := <["Content-Type" := ["application/json"]]> ∅;
                      payload := render q |}), q.
  unfold exchange, bind, quoteHandler.
  rewrite (serveHTTP_run quotes r w q quotes_nonempty Hq).
  cbn [fst ret]. unfold onWire.
  split; [reflexivity |].
  split; [destruct (isHead r); reflexivity |].
  split; [destruct (isHead r); apply lookup_insert_eq |].
  split; [exact Hin |].
  split; [destruct (isHead r); reflexivity |].
  split; [| destruct (isHead r); reflexivity].
  apply decode_render_iff. split.
  - exact (proj1 (Forall_forall _ _) quotes_plain q Hin).
  - exact (proj1 (Forall_forall _ _) quotes_well_formed q Hin).
Qed.

(** C10. None of the five strings of the program contains a double
    quote, a backslash or a control character; so, although the body
    is made by pasting the string into the format, the body of every
    response of the program is valid JSON. *)
Theorem hardcoded_quotes_need_no_escaping :
  Forall (fun q => Json.plain q = true) quotes /\
  forall (G : Generator) (r : Request) (w : World G),
    exists resp : Response,
      fst (serveHTTP quoteHandler r w) = Ok resp /\ Json.valid (payload resp).
Proof.
  split; [exact quotes_plain |].
  intros G r w.
  destruct (drawn_lookup quotes w quotes_nonempty) as [q Hq].
  unfold quoteHandler.
  rewrite (serveHTTP_run quotes r w q quotes_nonempty Hq).
  eexists. split; [reflexivity |].
  exists (quote_object q). cbn [payload].
  apply parse_render.
  apply (proj1 (Forall_forall _ _) quotes_plain q).
  eapply list_elem_of_lookup_2; exact Hq.
Qed.


(** A text with a double quote can also add members to the object. *)
Example dquote_in_quote_adds_member :
  Json.parse (render injected)
  = Some (JObject [("quote", JString "x"); ("admin", JString "y")]).
Proof. vm_compute. reflexivity. Qed.

(** A text with a backslash gives valid JSON that holds another text. *)
Example backslash_in_quote_changes_text :
  Json.parse (render (String backslash "n")) = Some (quote_object (str1 "010")).
Proof. vm_compute. reflexivity. Qed.

(** For every non-empty slice and every request the handler pastes the
    chosen string into the body as it is, with no escaping; the body
    is, in well-formed UTF-8, the JSON object whose single member
    [quote] holds the chosen string exactly when that string is
    well-formed UTF-8 with no double quote, no backslash and no control
    character. *)
Lemma body_pastes_quote_unescaped (G : Generator) (literal : list string)
  (r : Request) (w : World G) :
  literal <> [] ->
  exists (resp : Response) (q : string),
    fst (serveHTTP (quoteHandlerWith literal) r w) = Ok resp /\
    literal !! Z.to_nat (drawn literal w) = Some q /\
    payload resp = Sprintf quoteFormat [q] /\
    payload resp = render q /\
    (Json.decode (payload resp) = Some (quote_object q)
     <-> Json.plain q = true /\ Json.well_formed q = true).
Proof.
  intros Hne.
  destruct (drawn_lookup literal w Hne) as [q Hq].
  eexists _, q.
  rewrite (serveHTTP_run literal r w q Hne Hq). cbn [fst payload].
  split; [reflexivity |]. split; [exact Hq |].
  split; [reflexivity |]. split; [reflexivity |].
  apply decode_render_iff.
Qed.

(** ** Seeding *)

(** C3 (counterexample). The source has not been seeded when [main]
    starts serving, and one run of the handler seeds it. *)
Lemma handler_reseeds_at_request :
  seedings (snd (main (world0 42))) = 0%nat /\
  seedings (snd (quoteHandler freshWriter getRoot (world0 42))) = 1%nat /\
  randLog (snd (quoteHandler freshWriter getRoot (world0 42)))
  = [EvSeed 42; EvIntn 5 (drawn quotes (world0 42))].
Proof. vm_compute. repeat split; reflexivity. Qed.

Section Seeding.
Context {G : Generator}.

Lemma seedings_after (literal : list string) (w : World G) :
  seedings (after literal w) = S (seedings w).
Proof.
  unfold seedings, after. cbn [randLog].
  rewrite !List.filter_app, !List.length_app. cbn. lia.
Qed.

Lemma serveAll_seedings (reqs : list (Z * Request)) (w : World G) :
  seedings (snd (serveAll quoteHandler reqs w)) = (seedings w + List.length reqs)%nat.
Proof.
  revert w. induction reqs as [| [t r] reqs IH]; intros w.
  - cbn. lia.
  - cbn [serveAll List.length].
    destruct (drawn_lookup quotes (at_time t w) quotes_nonempty) as [q Hq].
    unfold quoteHandler in *.
    rewrite (serveHTTP_run quotes r (at_time t w) q quotes_nonempty Hq).
    specialize (IH (after quotes (at_time t w))).
    destruct (serveAll (quoteHandlerWith quotes) reqs (after quotes (at_time t w)))
      as [out w2].
    cbn [snd] in *. rewrite IH, seedings_after.
    unfold seedings, at_time. cbn [randLog]. lia.
Qed.

End Seeding.

(** C3 (amended). The random source is not seeded at process startup:
    [main] leaves it as it found it.  It is seeded by every run of the
    request handler, once, from the clock reading of that run and
    before the draw; so after any number of requests it has been seeded
    once per request. *)
Theorem handler_reseeds_every_request (G : Generator) :
  (forall w : World G,
     rng (snd (main w)) = rng w /\ randLog (snd (main w)) = randLog w) /\
  (forall (wr : ResponseWriter) (r : Request) (w : World G),
     randLog (snd (quoteHandler wr r w))
     = randLog w ++ [EvSeed (clock w); EvIntn 5 (drawn quotes w)]) /\
  (forall (reqs : list (Z * Request)) (w : World G),
     seedings (snd (serveAll quoteHandler reqs w))
     = (seedings w + List.length reqs)%nat).
Proof.
  split; [| split].
  - intros w. split; reflexivity.
  - intros wr r w.
    destruct (drawn_lookup quotes w quotes_nonempty) as [q Hq].
    unfold quoteHandler.
    rewrite (quoteHandlerWith_run quotes wr r w q quotes_nonempty Hq).
    unfold after. cbn [snd randLog]. rewrite <- List.app_assoc. reflexivity.
  - apply serveAll_seedings.
Qed.

(** ** The draw and the index *)

(** C5. With a non-empty slice the index the handler draws lies between
    0 and the length of the slice, the indexing finds an entry, and the
    handler returns without a panic. *)
Theorem drawn_index_in_bounds (G : Generator) (literal : list string)
  (wr : ResponseWriter) (r : Request) (w : World G) :
  literal <> [] ->
  exists (v : Z) (q : string),
    randLog (snd (quoteHandlerWith literal wr r w))
    = randLog w ++ [EvSeed (clock w); EvIntn (len literal) v] /\
    0 <= v < len literal /\
    (forall w' : World G, index literal v w' = (Ok q, w')) /\
    is_ok (fst (quoteHandlerWith literal wr r w)) = true.
Proof.
  intros Hne.
  destruct (drawn_lookup literal w Hne) as [q Hq].
  pose proof (drawn_range literal w Hne) as Hr.
  exists (drawn literal w), q.
  rewrite (quoteHandlerWith_run literal wr r w q Hne Hq).
  cbn [fst snd is_ok]. unfold after. cbn [randLog].
  split; [now rewrite <- List.app_assoc |].
  split; [exact Hr |]. split; [| reflexivity].
  intros w'. unfold index.
  destruct ((drawn literal w <? 0) || (len literal <=? drawn literal w)) eqn:E.
  { apply orb_true_iff in E as [E | E]; lia. }
  rewrite Hq. reflexivity.
Qed.

Lemma drawn_index_in_bounds_witness :
  quotes <> [] /\
  exists (v : Z) (q : string),
    randLog (snd (quoteHandlerWith quotes freshWriter postOther (world0 7)))
    = randLog (world0 7) ++ [EvSeed (clock (world0 7)); EvIntn (len quotes) v] /\
    0 <= v < len quotes /\
    (forall w' : World lcg, index quotes v w' = (Ok q, w')) /\
    is_ok (fst (quoteHandlerWith quotes freshWriter postOther (world0 7))) = true.
Proof.
  split; [discriminate |].
  apply (drawn_index_in_bounds lcg quotes freshWriter postOther (world0 7)).
  discriminate.
Defined.

(** ** The request *)

(** C7 (counterexample). With the random source in the same state,
    the same request gets another quote at another clock reading; and
    from one world a [GET] and a [HEAD] request do not receive the same
    response. *)
Lemma same_source_other_response :
  rng (world0 1) = rng (world0 2) /\
  fst (serveHTTP quoteHandler getRoot (world0 1))
  <> fst (serveHTTP quoteHandler getRoot (world0 2)) /\
  fst (exchange quoteHandler getRoot (world0 1))
  <> fst (exchange quoteHandler headRoot (world0 1)).
Proof.
  pose (body := fun res : result Response =>
                  match res with Ok x => payload x | Panic _ => EmptyString end).
  split; [reflexivity |]. split; intros H; apply (f_equal body) in H;
    vm_compute in H; discriminate H.
Qed.

(** C7 (amended). The handler does not read the request.  From the same
    world two requests make the handler write the same response and
    leave the same world; the response written is the same from two
    worlds that agree on the clock reading, whatever the state of the
    random source, since the handler reseeds from the clock.  What the
    two clients receive is that one response, each as the server sends
    it for its method: entire, or without the body for [HEAD]; so two
    requests that are both [HEAD], or neither, receive the same. *)
Theorem handler_ignores_request (G : Generator) (wr : ResponseWriter)
  (r1 r2 : Request) (w w' : World G) :
  quoteHandler wr r1 w = quoteHandler wr r2 w /\
  serveHTTP quoteHandler r1 w = serveHTTP quoteHandler r2 w /\
  (exists resp : Response,
     fst (serveHTTP quoteHandler r1 w) = Ok resp /\
     fst (serveHTTP quoteHandler r2 (at_time (clock w) w')) = Ok resp /\
     fst (exchange quoteHandler r1 w) = Ok (onWire r1 resp) /\
     fst (exchange quoteHandler r2 (at_time (clock w) w')) = Ok (onWire r2 resp)) /\
  (if Bool.eqb (isHead r1) (isHead r2)
   then fst (exchange quoteHandler r1 w)
        = fst (exchange quoteHandler r2 (at_time (clock w) w'))
   else True).
Proof.
  destruct (drawn_lookup quotes w quotes_nonempty) as [q Hq].
  unfold exchange, bind, quoteHandler.
  rewrite !(quoteHandlerWith_run quotes wr _ w q quotes_nonempty Hq).
  rewrite !(serveHTTP_run quotes _ w q quotes_nonempty Hq).
  rewrite (serveHTTP_run quotes r2 (at_time (clock w) w') q quotes_nonempty Hq).
  cbn [fst ret].
  split; [reflexivity |]. split; [reflexivity |].
  split; [eexists; repeat split; reflexivity |].
  unfold onWire. destruct (isHead r1), (isHead r2); cbn [Bool.eqb]; auto.
Qed.

(** ** The slice of quotes *)

Section Catalog.
Context {G : Generator}.

Lemma seedStmt_keeps : keeps_quotes (G:=G) seedStmt.
Proof. intros f w _. eexists _, _. split; reflexivity. Qed.

Lemma headerStmt_keeps : keeps_quotes (G:=G) headerStmt.
Proof. intros f w _. eexists _, _. split; reflexivity. Qed.

Lemma writeStmt_keeps : keeps_quotes (G:=G) writeStmt.
Proof. intros f w _. eexists _, _. split; reflexivity. Qed.

Lemma pickStmt_keeps : keeps_quotes (G:=G) pickStmt.
Proof.
  intros f w Hne.
  pose proof (intn_range G (rng w) (len (v_quotes f)) (len_pos _ Hne)) as Hr.
  unfold pickStmt, bind, Intn, index, ret, panic.
  destruct (len (v_quotes f) <=? 0) eqn:E0.
  { pose proof (len_pos _ Hne). lia. }
  destruct (intn G (rng w) (len (v_quotes f))) as [v s'] eqn:E.
  cbn [fst] in Hr.
  destruct ((v <? 0) || (len (v_quotes f) <=? v)) eqn:E1.
  { apply orb_true_iff in E1 as [E1 | E1]; lia. }
  destruct (lookup_lt_is_Some_2 (v_quotes f) (Z.to_nat v)) as [q Hq].
  { unfold len in Hr. lia. }
  rewrite Hq. eexists _, _. split; reflexivity.
Qed.

Lemma exec_keeps (stmts : list stmt) (f : Frame) (w : World G) :
  Forall (keeps_quotes (G:=G)) stmts ->
  v_quotes f <> [] ->
  exists (f' : Frame) (w' : World G),
    exec stmts f w = (Ok f', w') /\ v_quotes f' = v_quotes f.
Proof.
  intros Hall. revert f w.
  induction Hall as [| s stmts Hs _ IH]; intros f w Hne.
  - eexists _, _. split; reflexivity.
  - destruct (Hs f w Hne) as (f1 & w1 & E1 & Hq1).
    destruct (IH f1 w1 ltac:(congruence)) as (f2 & w2 & E2 & Hq2).
    exists f2, w2. cbn [exec]. unfold bind. rewrite E1, E2.
    split; [reflexivity | congruence].
Qed.

Lemma rest_keeps : Forall (keeps_quotes (G:=G)) [seedStmt; pickStmt; headerStmt; writeStmt].
Proof.
  repeat constructor;
    [apply seedStmt_keeps | apply pickStmt_keeps
     | apply headerStmt_keeps | apply writeStmt_keeps].
Qed.

End Catalog.

(** C6. In every run of the handler, whatever the request, the clock,
    the random source and the runs before it, the variable [quotes]
    holds the same five strings in the same order at every point after
    its declaration: no statement of the handler changes it, and every
    prefix of the body that includes the declaration runs to its end. *)
Theorem quotes_same_at_every_point (G : Generator) (k : nat)
  (wr : ResponseWriter) (r : Request) (w : World G) :
  (1 <= k)%nat ->
  exists (f : Frame) (w' : World G),
    exec (take k (body quotes)) (enter wr r) w = (Ok f, w') /\
    v_quotes f = quotes /\
    List.length (v_quotes f) = 5%nat.
Proof.
  intros Hk. destruct k as [|k]; [lia |].
  unfold body. cbn [take exec]. unfold bind at 1. cbn [declQuotes ret].
  set (f0 := {| v_w := v_w (enter wr r); v_r := v_r (enter wr r);
                v_quotes := quotes;
                v_randomQuote := v_randomQuote (enter wr r) |}).
  destruct (exec_keeps (take k [seedStmt; pickStmt; headerStmt; writeStmt]) f0 w)
    as (f & w' & E & Hq).
  - apply Forall_take, rest_keeps.
  - discriminate.
  - exists f, w'. rewrite E, Hq. repeat split; reflexivity.
Qed.

Lemma quotes_same_at_every_point_witness :
  (1 <= 3)%nat /\
  exists (f : Frame) (w' : World lcg),
    exec (take 3 (body quotes)) (enter freshWriter getRoot) (world0 11) = (Ok f, w') /\
    v_quotes f = quotes /\
    List.length (v_quotes f) = 5%nat.
Proof.
  split; [lia |].
  apply (quotes_same_at_every_point lcg 3 freshWriter getRoot (world0 11)). lia.
Defined.

(** ** Failure *)

(** C8 (counterexample). The slice of the program is not empty, and
    the process fails all the same when the port is taken: [main]
    returns without serving. *)
Lemma port_taken_stops_the_process :
  quotes <> [] /\
  can_bind (worldBusy 0) = false /\
  fst (main (worldBusy 0)) = Exited.
Proof. split; [discriminate | split; reflexivity]. Qed.

(** C8 (amended). The slice of the program is a literal of five
    entries, never empty, and no request fails: on every writer, for
    every request and in every world the handler returns without a
    panic, and the client gets a response.  The failure of the program
    is one of startup, not of a request: [main] serves the route [/]
    when the port can be bound, and when it cannot the process returns
    from [main] and never serves a request. *)
Theorem requests_never_fail_startup_may (G : Generator) (wr : ResponseWriter)
  (r : Request) (w : World G) :
  quotes <> [] /\
  List.length quotes = 5%nat /\
  is_ok (fst (quoteHandler wr r w)) = true /\
  is_ok (fst (exchange quoteHandler r w)) = true /\
  fst (main w)
  = (if can_bind w then Serving [("/", quoteHandler)] ":8080" else Exited).
Proof.
  destruct (drawn_lookup quotes w quotes_nonempty) as [q Hq].
  split; [exact quotes_nonempty |]. split; [reflexivity |].
  unfold exchange, bind, quoteHandler.
  rewrite (quoteHandlerWith_run quotes wr r w q quotes_nonempty Hq).
  rewrite (serveHTTP_run quotes r w q quotes_nonempty Hq).
  repeat split; reflexivity.
Qed.

(** ** Uniformity *)







(** ** Runs in progress *)

Section Interleaving.
Context {G : Generator}.

Lemma spawn_on_track (r : Request) : on_track (G:=G) (spawn quotes r).
Proof. split; [reflexivity |]. exists 0%nat. split; reflexivity. Qed.

Lemma pickStmt_quotes (f : Frame) (w : World G) :
  v_quotes f = quotes ->
  exists (q : string) (w' : World G),
    q ∈ quotes /\
    pickStmt f w
    = (Ok {| v_w := v_w f; v_r := v_r f; v_quotes := v_quotes f; v_randomQuote := q |},
       w').
Proof.
  intros Hq.
  pose proof (intn_range G (rng w) (len quotes) ltac:(reflexivity)) as Hr.
  unfold pickStmt, bind, Intn, index, ret, panic. rewrite Hq.
  change (len quotes <=? 0) with false. cbv iota.
  destruct (intn G (rng w) (len quotes)) as [v s'] eqn:E.
  cbn [fst] in Hr.
  destruct ((v <? 0) || (len quotes <=? v)) eqn:E1.
  { apply orb_true_iff in E1 as [E1 | E1]; lia. }
  destruct (lookup_lt_is_Some_2 quotes (Z.to_nat v)) as [q Hl].
  { change (List.length quotes) with 5%nat. change (len quotes) with 5 in Hr. lia. }
  rewrite Hl. exists q. eexists. split; [| reflexivity].
  eapply list_elem_of_lookup_2; exact Hl.
Qed.

Lemma step_on_track (i : nat) (t : Z) (runs : list Run) (w : World G) :
  Forall on_track runs -> Forall on_track (fst (step i t runs w)).
Proof.
  intros Hall. unfold step.
  destruct (runs !! i) as [run|] eqn:Hi; [| exact Hall].
  destruct (Forall_lookup_1 _ _ _ _ Hall Hi) as [Hc (j & Htodo & Hst)].
  rewrite Hc, Htodo.
  destruct j as [|[|[|[|[|j]]]]]; cbn [drop body].
  - (* the declaration *)
    cbn. apply Forall_insert; [exact Hall |].
    split; [reflexivity |]. exists 1%nat. cbn in Hst |- *. auto.
  - (* the seeding *)
    cbn. apply Forall_insert; [exact Hall |].
    split; [reflexivity |]. exists 2%nat. cbn in Hst |- *. auto.
  - (* the draw and the indexing *)
    destruct Hst as [Hw Hq].
    destruct (pickStmt_quotes (frame run) (at_time t w) Hq) as (q & w' & Hin & ->).
    cbn [fst]. apply Forall_insert; [exact Hall |].
    split; [reflexivity |]. exists 3%nat. cbn. auto.
  - (* the header *)
    destruct Hst as (Hw & Hq & Hin).
    cbn. apply Forall_insert; [exact Hall |].
    split; [reflexivity |]. exists 4%nat. cbn. rewrite Hw. auto.
  - (* the write *)
    destruct Hst as (Hw & Hin).
    cbn. apply Forall_insert; [exact Hall |].
    split; [reflexivity |]. exists 5%nat. cbn. rewrite Hw. auto.
  - rewrite drop_nil. exact Hall.
Qed.

Lemma interleave_on_track (schedule : list (nat * Z)) (runs : list Run)
  (w : World G) :
  Forall on_track runs -> Forall on_track (fst (interleave schedule runs w)).
Proof.
  revert runs w. induction schedule as [| [i t] rest IH]; intros runs w Hall.
  - exact Hall.
  - cbn [interleave].
    pose proof (step_on_track i t runs w Hall) as Hs.
    destruct (step i t runs w) as [runs' w']. apply IH, Hs.
Qed.

(** X11. Under every schedule no run of the handler panics, and a run
    that has executed all its statements holds the whole response for
    one entry of the slice. *)
Lemma interleaved_runs_respond (schedule : list (nat * Z))
  (reqs : list Request) (w : World G) :
  Forall (fun run : Run (G:=G) =>
            crashed run = None /\
            (todo run = [] ->
             exists q : string,
               q ∈ quotes /\
               response_of (v_w (frame run))
               = {| status := 200;
                    headers := <["Content-Type" := ["application/json"]]> ∅;
                    payload := render q |} /\
               Json.parse (render q) = Some (quote_object q)))
    (fst (interleave schedule (map (spawn quotes) reqs) w)).
Proof.
  eapply Forall_impl.
  - apply interleave_on_track, Forall_fmap, Forall_true. intros r. apply spawn_on_track.
  - intros run [Hc (j & Htodo & Hst)]. split; [exact Hc |].
    intros Hnil. rewrite Hnil in Htodo.
    destruct j as [|[|[|[|[|j]]]]]; try discriminate Htodo.
    destruct Hst as [Hw Hin]. exists (v_randomQuote (frame run)).
    split; [exact Hin |]. rewrite Hw. split; [reflexivity |].
    apply parse_render.
    exact (proj1 (Forall_forall _ _) quotes_plain _ Hin).
Qed.

End Interleaving.

(** * Further properties of the program *)

(** ** Runs of requests *)

Section Runs.
Context {G : Generator}.

Lemma serveHTTP_quoteHandler (r : Request) (w : World G) :
  exists q : string,
    q ∈ quotes /\
    quotes !! Z.to_nat (fst (intn G (seeded G (clock w)) 5)) = Some q /\
    serveHTTP quoteHandler r w = (Ok (jsonResponse q), after quotes w).
Proof.
  destruct (drawn_lookup quotes w quotes_nonempty) as [q Hq].
  exists q. split; [eapply list_elem_of_lookup_2; exact Hq |].
  split; [exact Hq |].
  unfold quoteHandler. now rewrite (serveHTTP_run quotes r w q quotes_nonempty Hq).
Qed.

Lemma exchange_quoteHandler (r : Request) (w : World G) :
  exists q : string,
    q ∈ quotes /\
    exchange quoteHandler r w = (Ok (onWire r (jsonResponse q)), after quotes w).
Proof.
  destruct (serveHTTP_quoteHandler r w) as (q & Hin & _ & E).
  exists q. split; [exact Hin |]. unfold exchange, bind. now rewrite E.
Qed.

(** The responses of a run, request by request. *)
Lemma serveAll_responses (reqs : list (Z * Request)) (w w0 : World G) :
  fst (serveAll quoteHandler reqs w)
  = map (fun tr => fst (serveHTTP quoteHandler (snd tr) (at_time (fst tr) w0))) reqs.
Proof.
  revert w. induction reqs as [| [t r] reqs IH]; intros w; [reflexivity |].
  cbn [serveAll map fst snd].
  destruct (serveHTTP_quoteHandler r (at_time t w)) as (q & _ & Hq & ->).
  destruct (serveHTTP_quoteHandler r (at_time t w0)) as (q0 & _ & Hq0 & ->).
  cbn [clock at_time] in Hq, Hq0. assert (q0 = q) as -> by congruence.
  specialize (IH (after quotes (at_time t w))).
  destruct (serveAll quoteHandler reqs (after quotes (at_time t w))) as [out w2].
  cbn [fst] in *. now rewrite IH.
Qed.

Lemma serveAll_stdout (reqs : list (Z * Request)) (w : World G) :
  stdout (snd (serveAll quoteHandler reqs w)) = stdout w.
Proof.
  revert w. induction reqs as [| [t r] reqs IH]; intros w; [reflexivity |].
  cbn [serveAll].
  destruct (serveHTTP_quoteHandler r (at_time t w)) as (q & _ & _ & ->).
  specialize (IH (after quotes (at_time t w))).
  destruct (serveAll quoteHandler reqs (after quotes (at_time t w))) as [out w2].
  cbn [snd] in *. rewrite IH. reflexivity.
Qed.

End Runs.

(** X1. In a run of requests handled one after the other, the response
    to each request is the one the handler gives at the clock reading
    of that request from any world whatever: neither the requests
    before it nor the state they left in the random source have a part
    in it. *)
Theorem response_depends_on_clock_only (G : Generator)
  (reqs : list (Z * Request)) (w w0 : World G) :
  fst (serveAll quoteHandler reqs w)
  = map (fun tr => fst (serveHTTP quoteHandler (snd tr) (at_time (fst tr) w0))) reqs.
Proof. apply serveAll_responses. Qed.

(** X2. Two requests of a run dispatched at the same clock reading are
    answered with the same quote, whatever was handled between them. *)
Theorem same_clock_same_quote (G : Generator) (reqs : list (Z * Request))
  (w : World G) (i j : nat) (t : Z) (r1 r2 : Request) :
  reqs !! i = Some (t, r1) ->
  reqs !! j = Some (t, r2) ->
  exists q : string,
    q ∈ quotes /\
    fst (serveAll quoteHandler reqs w) !! i = Some (Ok (jsonResponse q)) /\
    fst (serveAll quoteHandler reqs w) !! j = Some (Ok (jsonResponse q)).
Proof.
  intros Hi Hj.
  destruct (serveHTTP_quoteHandler r1 (at_time t w)) as (q & Hin & Hq & E1).
  destruct (serveHTTP_quoteHandler r2 (at_time t w)) as (q' & _ & Hq' & E2).
  assert (q' = q) as -> by congruence.
  exists q. split; [exact Hin |].
  rewrite (serveAll_responses reqs w w), !list_lookup_fmap, Hi, Hj.
  cbn [fmap option_fmap option_map fst snd]. now rewrite E1, E2.
Qed.

Lemma same_clock_same_quote_witness :
  [(5, getRoot); (9, postOther); (5, postOther)] !! 0%nat = Some (5, getRoot) /\
  [(5, getRoot); (9, postOther); (5, postOther)] !! 2%nat = Some (5, postOther) /\
  exists q : string,
    q ∈ quotes /\
    fst (serveAll quoteHandler [(5, getRoot); (9, postOther); (5, postOther)] (world0 0))
      !! 0%nat = Some (Ok (jsonResponse q)) /\
    fst (serveAll quoteHandler [(5, getRoot); (9, postOther); (5, postOther)] (world0 0))
      !! 2%nat = Some (Ok (jsonResponse q)).
Proof.
  split; [reflexivity |]. split; [reflexivity |].
  apply (same_clock_same_quote lcg [(5, getRoot); (9, postOther); (5, postOther)]
           (world0 0) 0 2 5 getRoot postOther); reflexivity.
Defined.

(** X3. In a run of requests the calls on the random source are, for
    each request in turn, one seeding with the clock reading of the
    request and then one draw: every value the program uses is the
    first value of a freshly seeded source. *)
Theorem every_draw_follows_its_seed (G : Generator)
  (reqs : list (Z * Request)) (w : World G) :
  randLog (snd (serveAll quoteHandler reqs w))
  = randLog w ++ flat_map (fun tr => calls_at (G:=G) (fst tr)) reqs.
Proof.
  revert w. induction reqs as [| [t r] reqs IH]; intros w.
  - cbn. now rewrite List.app_nil_r.
  - cbn [serveAll flat_map fst].
    destruct (serveHTTP_quoteHandler r (at_time t w)) as (q & _ & _ & ->).
    specialize (IH (after quotes (at_time t w))).
    destruct (serveAll quoteHandler reqs (after quotes (at_time t w))) as [out w2].
    cbn [snd] in *. rewrite IH. unfold after, calls_at, drawn.
    cbn [randLog at_time clock]. change (len quotes) with 5.
    rewrite <- !List.app_assoc. reflexivity.
Qed.

(** ** The whole program *)

(** X4. When the port can be bound, [main] serves the single route [/]
    with [quoteHandler].  Of the requests the server then receives,
    every one that it dispatches to that handler is answered with
    status 200 and the JSON content type; the handler's body is, in
    well-formed UTF-8, the object with the single member [quote]
    holding one of the five quotes, and the client receives it, or an
    empty body when the method is [HEAD]; the others do not reach the
    handler.  In the whole run the only output on standard output is
    the startup line. *)
Theorem program_answers_every_request (G : Generator)
  (route : Request -> bool) (reqs : list (Z * Request)) (w : World G) :
  can_bind w = true ->
  exists h : Handler,
    fst (main w) = Serving [("/", h)] ":8080" /\
    Forall2 (fun (tr : Z * Request) (res : option (result Response)) =>
               if route (snd tr) then
                 exists (resp : Response) (q : string),
                   res = Some (Ok resp) /\
                   status resp = 200 /\
                   headers resp !! "Content-Type" = Some ["application/json"] /\
                   q ∈ quotes /\
                   Json.decode (render q) = Some (quote_object q) /\
                   payload resp
                   = (if isHead (snd tr) then EmptyString else render q)
               else res = None)
            reqs (fst (exchangeAll route h reqs (snd (main w)))) /\
    stdout (snd (exchangeAll route h reqs (snd (main w))))
    = stdout w +:+ startupLine.
Proof.
  intros Hb. exists quoteHandler.
  split; [unfold main, mainWith, ListenAndServe; cbn; now rewrite Hb |].
  assert (Hrun : forall (l : list (Z * Request)) (w1 : World G),
             Forall2 (fun (tr : Z * Request) (res : option (result Response)) =>
                        if route (snd tr) then
                          exists (resp : Response) (q : string),
                            res = Some (Ok resp) /\
                            status resp = 200 /\
                            headers resp !! "Content-Type"
                            = Some ["application/json"] /\
                            q ∈ quotes /\
                            Json.decode (render q) = Some (quote_object q) /\
                            payload resp
                            = (if isHead (snd tr) then EmptyString else render q)
                        else res = None)
                     l (fst (exchangeAll route quoteHandler l w1)) /\
             stdout (snd (exchangeAll route quoteHandler l w1)) = stdout w1).
  { induction l as [| [t r] l IH]; intros w1.
    - split; [constructor | reflexivity].
    - cbn [exchangeAll]. destruct (route r) eqn:Hroute.
      + destruct (exchange_quoteHandler r (at_time t w1)) as (q & Hin & ->).
        specialize (IH (after quotes (at_time t w1))).
        destruct (exchangeAll route quoteHandler l (after quotes (at_time t w1)))
          as [out w2].
        cbn [fst snd] in *. destruct IH as [IH1 IH2]. split; [| exact IH2].
        constructor; [| exact IH1]. cbn [snd]. rewrite Hroute.
        exists (onWire r (jsonResponse q)), q. unfold onWire, jsonResponse.
        split; [reflexivity |].
        split; [destruct (isHead r); reflexivity |].
        split; [destruct (isHead r); apply lookup_insert_eq |].
        split; [exact Hin |].
        split; [| destruct (isHead r); reflexivity].
        apply decode_render_iff. split.
        * exact (proj1 (Forall_forall _ _) quotes_plain q Hin).
        * exact (proj1 (Forall_forall _ _) quotes_well_formed q Hin).
      + specialize (IH w1).
        destruct (exchangeAll route quoteHandler l w1) as [out w2].
        cbn [fst snd] in *. destruct IH as [IH1 IH2]. split; [| exact IH2].
        constructor; [| exact IH1]. cbn [snd]. now rewrite Hroute. }
  destruct (Hrun reqs (snd (main w))) as [H1 H2].
  split; [exact H1 |]. rewrite H2. reflexivity.
Qed.

Lemma program_answers_every_request_witness :
  can_bind (world0 0) = true /\
  exists h : Handler,
    fst (main (world0 0)) = Serving [("/", h)] ":8080" /\
    Forall2 (fun (tr : Z * Request) (res : option (result Response)) =>
               if cleanRoot (snd tr) then
                 exists (resp : Response) (q : string),
                   res = Some (Ok resp) /\
                   status resp = 200 /\
                   headers resp !! "Content-Type" = Some ["application/json"] /\
                   q ∈ quotes /\
                   Json.decode (render q) = Some (quote_object q) /\
                   payload resp
                   = (if isHead (snd tr) then EmptyString else render q)
               else res = None)
            [(1, getRoot); (2, headRoot); (3, optionsStar)]
            (fst (exchangeAll cleanRoot h
                    [(1, getRoot); (2, headRoot); (3, optionsStar)]
                    (snd (main (world0 0))))) /\
    stdout (snd (exchangeAll cleanRoot h
                   [(1, getRoot); (2, headRoot); (3, optionsStar)]
                   (snd (main (world0 0)))))
    = stdout (world0 0) +:+ startupLine.
Proof.
  split; [reflexivity |].
  apply (program_answers_every_request lcg cleanRoot
           [(1, getRoot); (2, headRoot); (3, optionsStar)] (world0 0)).
  reflexivity.
Defined.

(** X5. When the port cannot be bound, [main] still prints the startup
    line, and then the process is gone without having printed anything
    else: the error of [http.ListenAndServe] is dropped. *)
Theorem bind_failure_is_silent (G : Generator) (w : World G) :
  can_bind w = false ->
  fst (main w) = Exited /\
  stdout (snd (main w)) = stdout w +:+ startupLine.
Proof.
  intros Hb. unfold main, mainWith, ListenAndServe. cbn. now rewrite Hb.
Qed.

Lemma bind_failure_is_silent_witness :
  can_bind (Build_World lcg 0 1%Z EmptyString false []) = false /\
  fst (main (Build_World lcg 0 1%Z EmptyString false [])) = Exited /\
  stdout (snd (main (Build_World lcg 0 1%Z EmptyString false [])))
  = stdout (Build_World lcg 0 1%Z EmptyString false []) +:+ startupLine.
Proof.
  split; [reflexivity |].
  apply (bind_failure_is_silent lcg (Build_World lcg 0 1%Z EmptyString false [])).
  reflexivity.
Defined.

(** ** The state the handler starts from *)

(** X6. The state of the random source before a request has no part in
    what the handler does: with any slice, the handler's result and the
    world it leaves are the same whatever that state was, because the
    handler reseeds before it draws.  The handler leaves the clock,
    standard output and the port as they were. *)
Theorem source_history_is_erased (G : Generator) (literal : list string)
  (wr : ResponseWriter) (r : Request) (w : World G) (s : source G) :
  quoteHandlerWith literal wr r (with_rng s w) = quoteHandlerWith literal wr r w /\
  clock (snd (quoteHandlerWith literal wr r w)) = clock w /\
  stdout (snd (quoteHandlerWith literal wr r w)) = stdout w /\
  can_bind (snd (quoteHandlerWith literal wr r w)) = can_bind w.
Proof.
  destruct literal as [| q0 rest].
  - repeat split; reflexivity.
  - assert (Hne : q0 :: rest <> []) by discriminate.
    destruct (drawn_lookup (q0 :: rest) w Hne) as [q Hq].
    rewrite (quoteHandlerWith_run (q0 :: rest) wr r w q Hne Hq).
    rewrite (quoteHandlerWith_run (q0 :: rest) wr r (with_rng s w) q Hne Hq).
    repeat split; reflexivity.
Qed.

(** ** The writer the handler is given *)

Lemma Write_render (q : string) (w : ResponseWriter) :
  Write (render q) w = accept (render q) (WriteHeader 200 w).
Proof. reflexivity. Qed.

Lemma WriteHeader_unsent (w : ResponseWriter) (code : Z) :
  sent w = None ->
  header_get "Content-Length" (hdr w) = EmptyString ->
  WriteHeader code w
  = {| hdr := hdr w; sent := Some (code, hdr w); limit := None;
       offered := offered w; written := written w |}.
Proof. intros Hs Hg. unfold WriteHeader. now rewrite Hs, Hg. Qed.

Lemma WriteHeader_sent (w : ResponseWriter) (code : Z)
  (sh : Z * gmap string (list string)) :
  sent w = Some sh -> WriteHeader code w = w.
Proof. intros Hs. unfold WriteHeader. now rewrite Hs. Qed.

Example ParseInt_samples :
  ParseInt "75" = Some 75 /\ ParseInt "+5" = Some 5 /\ ParseInt "-0" = Some 0 /\
  ParseInt EmptyString = None /\ ParseInt "+" = None /\ ParseInt "12a" = None /\
  ParseInt "9223372036854775807" = Some 9223372036854775807 /\
  ParseInt "9223372036854775808" = None.
Proof. vm_compute. repeat split; reflexivity. Qed.

(** A writer with a declared length of ten bytes refuses the quote; one
    with status 204 sent refuses any body. *)
Example Write_refuses :
  written (Write "0123456789ab"
             (HeaderSet "Content-Length" "10" freshWriter)) = EmptyString /\
  written (Write "0123456789"
             (HeaderSet "Content-Length" "10" freshWriter)) = "0123456789" /\
  written (Write "body"
             {| hdr := ∅; sent := Some (204, ∅); limit := None; offered := 0;
                written := EmptyString |}) = EmptyString.
Proof. vm_compute. repeat split; reflexivity. Qed.

Section Writers.
Context {G : Generator}.

Lemma quoteHandler_writer (wr : ResponseWriter) (r : Request) (w : World G) :
  exists q : string,
    q ∈ quotes /\
    fst (quoteHandler wr r w)
    = Ok (Fprintf (HeaderSet "Content-Type" "application/json" wr) quoteFormat [q]).
Proof.
  destruct (drawn_lookup quotes w quotes_nonempty) as [q Hq].
  exists q. split; [eapply list_elem_of_lookup_2; exact Hq |].
  unfold quoteHandler.
  now rewrite (quoteHandlerWith_run quotes wr r w q quotes_nonempty Hq).
Qed.

End Writers.

(** X7. Given a writer of the server to which nothing has been written
    yet and whose header map declares no content length, the handler
    sends status 200 and the headers the writer had, with the values of
    [Content-Type] replaced by [application/json] and every other header
    kept; the body is what the writer held followed by one rendered
    quote. *)
Theorem unsent_writer_gets_json_header (G : Generator) (wr : ResponseWriter)
  (r : Request) (w : World G) :
  sent wr = None ->
  hdr wr !! "Content-Length" = None ->
  exists (wr' : ResponseWriter) (q : string),
    fst (quoteHandler wr r w) = Ok wr' /\
    q ∈ quotes /\
    response_of wr'
    = {| status := 200;
         headers := <["Content-Type" := ["application/json"]]> (hdr wr);
         payload := written wr +:+ render q |} /\
    headers (response_of wr') !! "Content-Type" = Some ["application/json"] /\
    (forall k : string,
       k <> "Content-Type" -> headers (response_of wr') !! k = hdr wr !! k).
Proof.
  intros Hs Hcl.
  destruct (quoteHandler_writer wr r w) as (q & Hin & E).
  eexists _, q. split; [exact E |]. split; [exact Hin |].
  assert (Hr : response_of
                 (Fprintf (HeaderSet "Content-Type" "application/json" wr)
                    quoteFormat [q])
               = {| status := 200;
                    headers := <["Content-Type" := ["application/json"]]> (hdr wr);
                    payload := written wr +:+ render q |}).
  { unfold Fprintf. rewrite Sprintf_quoteFormat, Write_render.
    rewrite WriteHeader_unsent.
    - reflexivity.
    - exact Hs.
    - unfold header_get. cbn [HeaderSet hdr].
      rewrite lookup_insert_ne by discriminate. now rewrite Hcl. }
  rewrite Hr. cbn [headers].
  split; [reflexivity |]. split; [apply lookup_insert_eq |].
  intros k Hk. apply lookup_insert_ne. congruence.
Qed.

Lemma unsent_writer_gets_json_header_witness :
  sent taggedWriter = None /\
  hdr taggedWriter !! "Content-Length" = None /\
  exists (wr' : ResponseWriter) (q : string),
    fst (quoteHandler taggedWriter getRoot (world0 3)) = Ok wr' /\
    q ∈ quotes /\
    response_of wr'
    = {| status := 200;
         headers := <["Content-Type" := ["application/json"]]> (hdr taggedWriter);
         payload := written taggedWriter +:+ render q |} /\
    headers (response_of wr') !! "Content-Type" = Some ["application/json"] /\
    (forall k : string,
       k <> "Content-Type" -> headers (response_of wr') !! k = hdr taggedWriter !! k).
Proof.
  split; [reflexivity |]. split; [vm_compute; reflexivity |].
  apply (unsent_writer_gets_json_header lcg taggedWriter getRoot (world0 3)).
  - reflexivity.
  - vm_compute. reflexivity.
Defined.

(** X8. Given a writer of the server already written to, the handler's
    header comes too late: the client has the status and the headers
    sent with the first write, whatever [Content-Type] they held.  The
    rendered quote is appended to the body already written, unless the
    writer refuses it, because the status sent allows no body (1xx,
    204, 304) or because the bytes offered would pass the declared
    content length; then nothing is appended, and the handler returns
    all the same. *)
Theorem started_writer_keeps_sent_header (G : Generator) (wr : ResponseWriter)
  (r : Request) (w : World G) (st : Z) (h : gmap string (list string)) :
  sent wr = Some (st, h) ->
  exists (wr' : ResponseWriter) (q : string),
    fst (quoteHandler wr r w) = Ok wr' /\
    q ∈ quotes /\
    status (response_of wr') = st /\
    headers (response_of wr') = h /\
    payload (response_of wr')
    = (if bodyAllowed st
          && negb match limit wr with
                  | Some n => n <? offered wr + Z.of_nat (String.length (render q))
                  | None => false
                  end
       then written wr +:+ render q
       else written wr).
Proof.
  intros Hs.
  destruct (quoteHandler_writer wr r w) as (q & Hin & E).
  eexists _, q. split; [exact E |]. split; [exact Hin |].
  unfold Fprintf. rewrite Sprintf_quoteFormat, Write_render.
  rewrite (WriteHeader_sent _ 200 (st, h)) by exact Hs.
  unfold accept, response_of. cbn [HeaderSet sent limit offered written].
  rewrite Hs.
  destruct (bodyAllowed st); cbn [andb];
    [destruct (limit wr) as [n |]; cbn [negb];
       [destruct (n <? offered wr + Z.of_nat (String.length (render q))) |] |];
    unfold WriteHeader, HeaderSet; cbn [sent hdr limit offered written negb];
    rewrite ?Hs; cbn [sent written status headers payload];
    rewrite ?Hs; repeat split; reflexivity.
Qed.

Lemma started_writer_keeps_sent_header_witness :
  sent startedWriter = Some (200, {[ "Content-Type" := ["text/html"] ]}) /\
  exists (wr' : ResponseWriter) (q : string),
    fst (quoteHandler startedWriter getRoot (world0 3)) = Ok wr' /\
    q ∈ quotes /\
    status (response_of wr') = 200 /\
    headers (response_of wr') = {[ "Content-Type" := ["text/html"] ]} /\
    payload (response_of wr')
    = (if bodyAllowed 200
          && negb match limit startedWriter with
                  | Some n =>
                      n <? offered startedWriter + Z.of_nat (String.length (render q))
                  | None => false
                  end
       then written startedWriter +:+ render q
       else written startedWriter).
Proof.
  split; [reflexivity |].
  apply (started_writer_keeps_sent_header lcg startedWriter getRoot (world0 3)).
  reflexivity.
Defined.

(** ** Quotes that would need escaping *)

Lemma string_append_assoc (a b c : string) :
  (a +:+ b) +:+ c = a +:+ (b +:+ c).
Proof.
  induction a as [| x a IH]; [reflexivity |].
  change (String x ((a +:+ b) +:+ c) = String x (a +:+ (b +:+ c))).
  now rewrite IH.
Qed.

Lemma control_not_delimiter (c : ascii) :
  is_control c = true ->
  Ascii.eqb c dquote = false /\ Ascii.eqb c backslash = false.
Proof.
  destruct c as [[] [] [] [] [] [] [] []]; intros H;
    try discriminate H; split; reflexivity.
Qed.

(** The scan of a string stops with an error at a control character
    that comes after plain text. *)
Lemma scan_string_control (p : string) (c : ascii) (x : string) :
  plain p = true -> is_control c = true ->
  scan_string (p +:+ String c x) = None.
Proof.
  intros Hp Hc. induction p as [| a p IH].
  - destruct (control_not_delimiter c Hc) as [Hq Hb].
    change (EmptyString +:+ String c x) with (String c x).
    cbn [scan_string]. now rewrite Hq, Hb, Hc.
  - cbn [plain] in Hp. apply andb_true_iff in Hp as [Ha Hp].
    apply negb_true_iff, needs_escape_false in Ha as (Hq & Hb & Hk).
    change (String a p +:+ String c x) with (String a (p +:+ String c x)).
    cbn [scan_string]. now rewrite Hq, Hb, Hk, (IH Hp).
Qed.

Lemma parse_render_control (p : string) (c : ascii) (rest : string) :
  plain p = true -> is_control c = true ->
  parse (render (p +:+ String c rest)) = None.
Proof.
  intros Hp Hc. unfold parse.
  destruct (render_length (p +:+ String c rest)) as [k ->].
  rewrite parse_value_render_eq, string_append_assoc.
  change (String c rest +:+ String dquote "}")
    with (String c (rest +:+ String dquote "}")).
  unfold parse_string. now rewrite (scan_string_control p c _ Hp Hc).
Qed.

Lemma parse_render_dquote (p rest : string) (v : json) :
  plain p = true ->
  parse (render (p +:+ String dquote rest)) = Some v ->
  exists ms : list (string * json), v = JObject (("quote", JString p) :: ms).
Proof.
  intros Hp. unfold parse.
  destruct (render_length (p +:+ String dquote rest)) as [k ->].
  rewrite parse_value_render_eq, string_append_assoc.
  change (String dquote rest +:+ String dquote "}")
    with (String dquote (rest +:+ String dquote "}")).
  rewrite (parse_string_plain p _ Hp).
  destruct (skip_ws (rest +:+ String dquote "}")) as [| c r3]; [discriminate |].
  destruct (Ascii.eqb c ",").
  - destruct (parse_members (S k) r3) as [[ms r']|]; [| discriminate].
    destruct (skip_ws r'); [| discriminate].
    intros [= <-]. now exists ms.
  - destruct (Ascii.eqb c "}"); [| discriminate].
    destruct (skip_ws r3); [| discriminate].
    intros [= <-]. now exists [].
Qed.

Lemma lookup_nonempty (literal : list string) (i : nat) (q : string) :
  literal !! i = Some q -> literal <> [].
Proof. intros H ->. discriminate H. Qed.

(** X9. With any slice, when the chosen string has a control character
    (a line feed, a tab) after text that needs no escaping, the handler
    answers all the same, with status 200 and the JSON content type,
    and the body is not JSON. *)
Theorem control_character_breaks_body (G : Generator) (literal : list string)
  (r : Request) (w : World G) (p : string) (c : ascii) (rest : string) :
  literal !! Z.to_nat (drawn literal w) = Some (p +:+ String c rest) ->
  Json.plain p = true ->
  Json.is_control c = true ->
  exists resp : Response,
    fst (serveHTTP (quoteHandlerWith literal) r w) = Ok resp /\
    status resp = 200 /\
    headers resp !! "Content-Type" = Some ["application/json"] /\
    payload resp = render (p +:+ String c rest) /\
    Json.parse (payload resp) = None.
Proof.
  intros Hq Hp Hc.
  rewrite (serveHTTP_run literal r w _ (lookup_nonempty _ _ _ Hq) Hq).
  eexists. split; [reflexivity |]. cbn [status headers payload].
  split; [reflexivity |]. split; [apply lookup_insert_eq |].
  split; [reflexivity |]. now apply parse_render_control.
Qed.

Lemma control_character_breaks_body_witness :
  [twoLines] !! Z.to_nat (drawn [twoLines] (world0 0))
  = Some ("first line" +:+ String "010" "second line") /\
  Json.plain "first line" = true /\
  Json.is_control "010" = true /\
  exists resp : Response,
    fst (serveHTTP (quoteHandlerWith [twoLines]) getRoot (world0 0)) = Ok resp /\
    status resp = 200 /\
    headers resp !! "Content-Type" = Some ["application/json"] /\
    payload resp = render ("first line" +:+ String "010" "second line") /\
    Json.parse (payload resp) = None.
Proof.
  split; [reflexivity |]. split; [reflexivity |]. split; [reflexivity |].
  apply (control_character_breaks_body lcg [twoLines] getRoot (world0 0)
           "first line" "010" "second line"); reflexivity.
Defined.

(** X10. With any slice, when the chosen string has a double quote
    after text that needs no escaping, whatever the body parses as is
    an object whose first member is [quote] with only the text before
    that double quote: the quote is cut there, and what follows it is
    read as JSON of its own. *)
Theorem double_quote_cuts_the_quote (G : Generator) (literal : list string)
  (r : Request) (w : World G) (p rest : string) :
  literal !! Z.to_nat (drawn literal w) = Some (p +:+ String dquote rest) ->
  Json.plain p = true ->
  exists resp : Response,
    fst (serveHTTP (quoteHandlerWith literal) r w) = Ok resp /\
    payload resp = render (p +:+ String dquote rest) /\
    forall v : json,
      Json.parse (payload resp) = Some v ->
      exists ms : list (string * json), v = JObject (("quote", JString p) :: ms).
Proof.
  intros Hq Hp.
  rewrite (serveHTTP_run literal r w _ (lookup_nonempty _ _ _ Hq) Hq).
  eexists. split; [reflexivity |]. cbn [payload]. split; [reflexivity |].
  intros v. now apply parse_render_dquote.
Qed.

Lemma double_quote_cuts_the_quote_witness :
  [injected] !! Z.to_nat (drawn [injected] (world0 0))
  = Some ("x" +:+ String dquote (", " +:+ String dquote ("admin" +:+
            String dquote (": " +:+ String dquote "y")))) /\
  Json.plain "x" = true /\
  exists resp : Response,
    fst (serveHTTP (quoteHandlerWith [injected]) getRoot (world0 0)) = Ok resp /\
    payload resp
    = render ("x" +:+ String dquote (", " +:+ String dquote ("admin" +:+
                String dquote (": " +:+ String dquote "y")))) /\
    forall v : json,
      Json.parse (payload resp) = Some v ->
      exists ms : list (string * json), v = JObject (("quote", JString "x") :: ms).
Proof.
  split; [reflexivity |]. split; [reflexivity |].
  apply (double_quote_cuts_the_quote lcg [injected] getRoot (world0 0) "x"
           (", " +:+ String dquote ("admin" +:+
              String dquote (": " +:+ String dquote "y"))));
    reflexivity.
Defined.
